(** * ShopMasterPro: state reconciliation and metrics of [src/App.tsx]

    The development embeds the part of [App.tsx] that owns data: the five
    [useState] initialisers (loading from [localStorage]), the five
    [useEffect]s that write the stores back, the [stats] memo (the "Global
    Calculation Engine"), the six action handlers and the header title.
    Rendering and navigation are not modelled.

    - Numbers.  A JavaScript number is [Num.t]: [NaN], [+Infinity],
      [-Infinity] or a finite value, given as a rational.  The results of
      [+], [-] and [*] on finite values are rounded as binary64 rounds them:
      to the nearest value with a 53-bit significand, ties to the even
      significand, gradual underflow below 2^-1022, [Infinity] from 2^1024
      on ([Num.round64]).  [+0] and [-0] are one value: the source has no
      operation that tells them apart.  What the source relies on to
      tolerate bad data ([Number(x)], [x || 0], [Math.max], comparisons with
      [NaN]) is modelled operator by operator in the modules [Num] and [JS].
    - Records have the properties the code reads; a numeric property holds
      a [Primitive], so that absent and non-numeric contents can be stated.
    - A handler is a function on [State], the five stores together.  The
      clock read by [new Date()] is a parameter.
    - [stats] is a total function: its only partial step, looking a product
      up by id, yields an [option] that each use site handles as the source
      does ([product?.price], [product ? ... : 0], [if (!p) return acc]). *)

From Stdlib Require Import List String Ascii Bool Arith ZArith QArith Qpower Qcanon
  Lia.
Import ListNotations.

Close Scope Q_scope.
Open Scope nat_scope.
Open Scope string_scope.
Open Scope list_scope.
Open Scope bool_scope.

(* ================================================================== *)
(** ** JavaScript numbers *)
(* ================================================================== *)

Module Num.

(** A number.  A finite value is given as a rational; the JavaScript
    numbers among them are the values binary64 has, and [add], [sub], [mul]
    and [JS.StringToNumber] return no others.  [+0] and [-0] are the one
    value [zero]. *)
Inductive t : Type :=
| NaN
| NegInf
| Fin (q : Qc)
| PosInf.

(** An integer as a number. *)
Definition ofZ (z : Z) : t := Fin (Q2Qc (inject_Z z)).
Definition zero : t := ofZ 0%Z.

(** Sign of a finite value, as a comparison with 0. *)
Definition sgn (q : Qc) : comparison := Qccompare q (Q2Qc 0%Q).

(** unary [-a] *)
Definition neg (a : t) : t :=
  match a with
  | NaN => NaN
  | NegInf => PosInf
  | Fin x => Fin (- x)%Qc
  | PosInf => NegInf
  end.

(** The value [m * 2^e]. *)
Definition dyadic (m e : Z) : Qc := Q2Qc (inject_Z m * Qpower (2 # 1) e)%Q.

(** The binary64 value nearest to the positive rational [n / d].  With [e]
    the exponent of the last place ([2^52 <= (n/d) / 2^e < 2^53], and
    [e = -1074] for a subnormal), the significand is the integer nearest to
    [(n/d) / 2^e], the even one of two equally near; a result of [2^1024]
    or more is [Infinity]. *)
Definition roundPos (n d : positive) : t :=
  let k := (Z.log2 (Zpos n) - Z.log2 (Zpos d))%Z in
  let above := if (0 <=? k)%Z then (Zpos d * 2 ^ k <=? Zpos n)%Z
               else (Zpos d <=? Zpos n * 2 ^ (- k))%Z in
  let e := Z.max (if above then k - 52 else k - 53) (-1074) in
  let N := if (0 <=? e)%Z then Zpos n else (Zpos n * 2 ^ (- e))%Z in
  let D := if (0 <=? e)%Z then (Zpos d * 2 ^ e)%Z else Zpos d in
  let q := (N / D)%Z in
  let m := match (2 * (N mod D) ?= D)%Z with
           | Lt => q
           | Gt => (q + 1)%Z
           | Eq => if Z.even q then q else (q + 1)%Z
           end in
  if (0 <=? e)%Z && (2 ^ 1024 <=? m * 2 ^ e)%Z then PosInf
  else Fin (dyadic m e).

(** Rounding of an exact result to binary64, to nearest, ties to even. *)
Definition round64 (x : Qc) : t :=
  match Qnum x with
  | Z0 => zero
  | Zpos n => roundPos n (Qden x)
  | Zneg n => neg (roundPos n (Qden x))
  end.

(** [a + b]: the sum of two finite values is rounded. *)
Definition add (a b : t) : t :=
  match a, b with
  | NaN, _ | _, NaN => NaN
  | Fin x, Fin y => round64 (x + y)%Qc
  | PosInf, NegInf | NegInf, PosInf => NaN
  | PosInf, _ | _, PosInf => PosInf
  | NegInf, _ | _, NegInf => NegInf
  end.

(** [a - b], which binary64 computes as [a + (-b)]. *)
Definition sub (a b : t) : t := add a (neg b).

(** The infinity carrying the sign [c]; [0 * Infinity] is [NaN]. *)
Definition inf_of_sign (c : comparison) : t :=
  match c with
  | Eq => NaN
  | Lt => NegInf
  | Gt => PosInf
  end.

Definition flip (c : comparison) : comparison := CompOpp c.

(** [a * b]: the product of two finite values is rounded. *)
Definition mul (a b : t) : t :=
  match a, b with
  | NaN, _ | _, NaN => NaN
  | Fin x, Fin y => round64 (x * y)%Qc
  | Fin x, PosInf | PosInf, Fin x => inf_of_sign (sgn x)
  | Fin x, NegInf | NegInf, Fin x => inf_of_sign (flip (sgn x))
  | PosInf, PosInf | NegInf, NegInf => PosInf
  | PosInf, NegInf | NegInf, PosInf => NegInf
  end.

(** [a < b]; every comparison with [NaN] is false. *)
Definition ltb (a b : t) : bool :=
  match a, b with
  | NaN, _ | _, NaN => false
  | Fin x, Fin y => match Qccompare x y with Lt => true | _ => false end
  | NegInf, NegInf => false
  | NegInf, _ => true
  | _, NegInf => false
  | PosInf, _ => false
  | _, PosInf => true
  end.

(** [a <= b] *)
Definition leb (a b : t) : bool :=
  match a, b with
  | NaN, _ | _, NaN => false
  | Fin x, Fin y => match Qccompare x y with Gt => false | _ => true end
  | NegInf, _ => true
  | _, PosInf => true
  | _, NegInf => false
  | PosInf, _ => false
  end.

(** [Math.max(a, b)]: [NaN] if either argument is, else the larger. *)
Definition max (a b : t) : t :=
  match a, b with
  | NaN, _ | _, NaN => NaN
  | _, _ => if ltb a b then b else a
  end.

(** [ToBoolean] on a number: [NaN] and zero are falsy. *)
Definition truthy (a : t) : bool :=
  match a with
  | NaN => false
  | Fin x => match sgn x with Eq => false | _ => true end
  | _ => true
  end.

(** [a || 0] for a number [a]. *)
Definition orZero (a : t) : t := if truthy a then a else zero.

Definition isNaN (a : t) : bool :=
  match a with NaN => true | _ => false end.

Definition isFinite (a : t) : bool :=
  match a with Fin _ => true | _ => false end.

End Num.

Declare Scope num_scope.
Delimit Scope num_scope with num.
Bind Scope num_scope with Num.t.
Infix "+" := Num.add : num_scope.
Infix "-" := Num.sub : num_scope.
Infix "*" := Num.mul : num_scope.
Infix "<?" := Num.ltb : num_scope.
Infix "<=?" := Num.leb : num_scope.
Arguments Num.ofZ z%_Z.


(* ================================================================== *)
(** ** JavaScript values *)
(* ================================================================== *)

(** A primitive value: what a numeric property of a stored record holds
    at run time, [undefined] when the property is absent.  Properties that
    hold an object or an array are outside the model. *)
Inductive Primitive : Type :=
| PUndefined
| PNull
| PBool (b : bool)
| PNumber (n : Num.t)
| PString (s : string).

(** A run-time value: what [JSON.parse] produces and what the
    initialisers of the stores return. *)
#[warnings="-register-all"]
Inductive Value : Type :=
| VPrimitive (p : Primitive)
| VArray (elems : list Value)
| VObject (props : list (string * Value)).

Module JS.

Local Open Scope char_scope.

(** *** [StringToNumber] (ECMA-262, 7.1.4.1.1)

    A string is the sequence of the bytes of its UTF-8 encoding.  The text
    is trimmed of [StrWhiteSpaceChar]s; what is left is empty (0), a signed
    decimal with optional fraction and exponent, a signed [Infinity], or an
    unsigned [0x]/[0o]/[0b] integer; anything else is [NaN].  The number is
    the binary64 value nearest to the value of the literal. *)

Definition bytes (codes : list nat) : list ascii := List.map ascii_of_nat codes.

(** [StrWhiteSpaceChar]: TAB, LF, VT, FF, CR, SP, U+00A0, U+1680,
    U+2000..U+200A, U+2028, U+2029, U+202F, U+205F, U+3000, U+FEFF. *)
Definition whiteSpace : list (list ascii) :=
  List.map bytes
    [[9]; [10]; [11]; [12]; [13]; [32]; [194; 160]; [225; 154; 128];
     [226; 128; 128]; [226; 128; 129]; [226; 128; 130]; [226; 128; 131];
     [226; 128; 132]; [226; 128; 133]; [226; 128; 134]; [226; 128; 135];
     [226; 128; 136]; [226; 128; 137]; [226; 128; 138]; [226; 128; 168];
     [226; 128; 169]; [226; 128; 175]; [226; 129; 159]; [227; 128; 128];
     [239; 187; 191]].

(** [l] without its prefix [pre], if it starts with it. *)
Fixpoint afterPrefix (pre l : list ascii) : option (list ascii) :=
  match pre, l with
  | [], _ => Some l
  | a :: pre', b :: l' => if Ascii.eqb a b then afterPrefix pre' l' else None
  | _ :: _, [] => None
  end.

(** [l] without one leading member of [seqs], if it starts with one. *)
Fixpoint afterOneOf (seqs : list (list ascii)) (l : list ascii)
  : option (list ascii) :=
  match seqs with
  | [] => None
  | w :: rest =>
      match afterPrefix w l with
      | Some r => Some r
      | None => afterOneOf rest l
      end
  end.

Fixpoint dropLeading (seqs : list (list ascii)) (fuel : nat)
  (l : list ascii) : list ascii :=
  match fuel with
  | O => l
  | S fuel' =>
      match afterOneOf seqs l with
      | Some r => dropLeading seqs fuel' r
      | None => l
      end
  end.

Definition trim (l : list ascii) : list ascii :=
  let front := dropLeading whiteSpace (List.length l) l in
  rev (dropLeading (List.map (@rev ascii) whiteSpace) (List.length front)
         (rev front)).

(** Value of a digit in the given base, if it is one. *)
Definition digitVal (base : Z) (c : ascii) : option Z :=
  let n := Z.of_nat (nat_of_ascii c) in
  let v := (if (48 <=? n) && (n <=? 57) then Some (n - 48)
            else if (97 <=? n) && (n <=? 102) then Some (n - 87)
            else if (65 <=? n) && (n <=? 70) then Some (n - 55)
            else None)%Z in
  match v with
  | Some d => if (d <? base)%Z then Some d else None
  | None => None
  end.

(** Longest prefix of digits: its value (continuing [acc]), its length
    (continuing [cnt]) and the rest of the input. *)
Fixpoint digits (base acc : Z) (cnt : nat) (l : list ascii)
  : Z * nat * list ascii :=
  match l with
  | c :: r =>
      match digitVal base c with
      | Some d => digits base (acc * base + d)%Z (S cnt) r
      | None => (acc, cnt, l)
      end
  | [] => (acc, cnt, [])
  end.

(** All of [l] is a non-empty run of digits. *)
Definition wholeInt (base : Z) (l : list ascii) : option Z :=
  match digits base 0%Z 0 l with
  | (v, S _, []) => Some v
  | _ => None
  end.

(** [ExponentPart], or nothing, up to the end of the input. *)
Definition exponent (l : list ascii) : option Z :=
  match l with
  | [] => Some 0%Z
  | e :: r =>
      if Ascii.eqb e "e" || Ascii.eqb e "E" then
        match r with
        | "+" :: r' => wholeInt 10%Z r'
        | "-" :: r' => option_map Z.opp (wholeInt 10%Z r')
        | _ => wholeInt 10%Z r
        end
      else None
  end.

(** The exact value of a [StrUnsignedDecimalLiteral] other than
    [Infinity]. *)
Definition unsignedDecimal (l : list ascii) : option Qc :=
  let '(ip, ni, r1) := digits 10%Z 0%Z 0 l in
  let '(m, nf, r2) :=
    match r1 with
    | "." :: r => digits 10%Z ip 0 r
    | _ => (ip, 0%nat, r1)
    end in
  match (ni + nf)%nat, exponent r2 with
  | S _, Some e =>
      Some (Q2Qc (inject_Z m * Qpower (10 # 1) (e - Z.of_nat nf))%Q)
  | _, _ => None
  end.

Definition chars (s : string) : list ascii := list_ascii_of_string s.

Definition signedDecimal (l : list ascii) : Num.t :=
  let '(negative, body) :=
    match l with
    | "+" :: r => (false, r)
    | "-" :: r => (true, r)
    | _ => (false, l)
    end in
  let magnitude :=
    if list_eq_dec Ascii.ascii_dec body (chars "Infinity") then Num.PosInf
    else match unsignedDecimal body with
         | Some q => Num.round64 q
         | None => Num.NaN
         end in
  if negative then Num.neg magnitude else magnitude.

Definition nonDecimal (l : list ascii) : option (option Z) :=
  match l with
  | "0" :: p :: r =>
      if Ascii.eqb p "x" || Ascii.eqb p "X" then Some (wholeInt 16%Z r)
      else if Ascii.eqb p "o" || Ascii.eqb p "O" then Some (wholeInt 8%Z r)
      else if Ascii.eqb p "b" || Ascii.eqb p "B" then Some (wholeInt 2%Z r)
      else None
  | _ => None
  end.

Definition StringToNumber (s : string) : Num.t :=
  match trim (chars s) with
  | [] => Num.zero
  | l =>
      match nonDecimal l with
      | Some (Some z) => Num.round64 (Q2Qc (inject_Z z))
      | Some None => Num.NaN
      | None => signedDecimal l
      end
  end.

(** *** [ToNumber]: [Number(v)] and the operand conversion of [*], [-] *)
Definition ToNumber (v : Primitive) : Num.t :=
  match v with
  | PUndefined => Num.NaN
  | PNull => Num.zero
  | PBool b => if b then Num.ofZ 1%Z else Num.zero
  | PNumber n => n
  | PString s => StringToNumber s
  end.

Definition Number (v : Primitive) : Num.t := ToNumber v.

(** *** [ToBoolean] *)
Definition truthy (v : Primitive) : bool :=
  match v with
  | PUndefined | PNull => false
  | PBool b => b
  | PNumber n => Num.truthy n
  | PString s => negb (String.eqb s "")
  end.

(** [a || b] *)
Definition or (a b : Primitive) : Primitive := if truthy a then a else b.

(** [Array.isArray(v)] *)
Definition isArray (v : Value) : bool :=
  match v with VArray _ => true | _ => false end.

(** [Array.prototype.map]: the callback also receives the index. *)
Fixpoint mapFrom {A B : Type} (i : nat) (f : A -> nat -> B) (l : list A)
  : list B :=
  match l with
  | [] => []
  | x :: r => f x i :: mapFrom (S i) f r
  end.

Definition map {A B : Type} (f : A -> nat -> B) (l : list A) : list B :=
  mapFrom 0 f l.

End JS.

(* ================================================================== *)
(** ** Data model *)
(* ================================================================== *)

(** Modelled from the spec: [./types] is not among the sources; the record
    shapes follow section 3 of the specification and the property names the
    code reads.  Identifiers and free text are strings.  A numeric property
    is a [Primitive] rather than a number, because the code itself reads it
    through [Number(...)] and [|| 0]; [rest] stands for any further
    properties, which object spread carries along. *)

Module Product.
Record t : Type := mk {
  id : string;
  name : string;
  price : Primitive;
  cost : Primitive;
  stock : Primitive;
  minStock : Primitive;
  lastUpdated : string;
  rest : list (string * Value)
}.

(** [{...p, stock: s, lastUpdated: ts}] *)
Definition withStock (p : t) (s : Primitive) (ts : string) : t :=
  {| id := id p; name := name p; price := price p; cost := cost p;
     stock := s; minStock := minStock p; lastUpdated := ts;
     rest := rest p |}.

(** The run-time object of a record. *)
Definition toValue (p : t) : Value :=
  VObject (("id", VPrimitive (PString (id p)))
           :: ("name", VPrimitive (PString (name p)))
           :: ("price", VPrimitive (price p))
           :: ("cost", VPrimitive (cost p))
           :: ("stock", VPrimitive (stock p))
           :: ("minStock", VPrimitive (minStock p))
           :: ("lastUpdated", VPrimitive (PString (lastUpdated p)))
           :: rest p).
End Product.

Module SaleItem.
Record t : Type := mk {
  productId : string;
  quantity : Primitive;
  price : Primitive
}.
End SaleItem.

Module Sale.
(** [items] is [None] when the property is absent or [null]. *)
Record t : Type := mk {
  id : string;
  items : option (list SaleItem.t);
  total : Primitive;
  timestamp : string
}.
End Sale.

Module Expense.
Record t : Type := mk {
  id : string;
  amount : Primitive;
  description : string;
  timestamp : string
}.
End Expense.

Module StockOut.
Record t : Type := mk {
  id : string;
  productId : string;
  quantity : Primitive;
  reason : string;
  timestamp : string
}.
End StockOut.

Module ShopSettings.
Record ReturnPolicy : Type := mkPolicy {
  enabled : bool;
  content : string;
  lastUpdated : string
}.
Record t : Type := mk { returnPolicy : ReturnPolicy }.

Definition toValue (s : t) : Value :=
  VObject [("returnPolicy",
            VObject [("enabled",
                      VPrimitive (PBool (enabled (returnPolicy s))));
                     ("content",
                      VPrimitive (PString (content (returnPolicy s))));
                     ("lastUpdated",
                      VPrimitive (PString (lastUpdated (returnPolicy s))))])].
End ShopSettings.

Module DashboardStats.
Record t : Type := mk {
  totalRevenue : Num.t;
  totalProfit : Num.t;
  totalSales : nat;
  totalExpenses : Num.t;
  lowStockCount : nat
}.
End DashboardStats.

(** [DEFAULT_SETTINGS]; [loadedAt] is [new Date().toISOString()] at module
    evaluation. *)
Definition DEFAULT_SETTINGS (loadedAt : string) : ShopSettings.t :=
  ShopSettings.mk
    (ShopSettings.mkPolicy false
       "Items can be returned within 7 days of purchase in original packaging. Receipt is mandatory."
       loadedAt).

(** The five [useState] slots of [App]. *)
Record State : Type := mkState {
  products : list Product.t;
  sales : list Sale.t;
  expenses : list Expense.t;
  stockOuts : list StockOut.t;
  shopSettings : ShopSettings.t
}.

(* ================================================================== *)
(** ** Global Calculation Engine: [stats] *)
(* ================================================================== *)

Section Engine.

Local Open Scope num_scope.

Variable products : list Product.t.
Variable sales : list Sale.t.
Variable expenses : list Expense.t.
Variable stockOuts : list StockOut.t.

(** [products.find(p => p.id === pid)] *)
Definition findProduct (pid : string) : option Product.t :=
  find (fun p => String.eqb (Product.id p) pid) products.

(** [so => so.reason === 'Sale'] *)
Definition isSale (so : StockOut.t) : bool :=
  String.eqb (StockOut.reason so) "Sale".

(** [product?.price] *)
Definition optPrice (product : option Product.t) : Primitive :=
  match product with
  | Some p => Product.price p
  | None => PUndefined
  end.

Definition baseRevenue : Num.t :=
  fold_left
    (fun acc s => acc + Num.orZero (JS.Number (Sale.total s)))
    sales Num.zero.

(** [(product?.price || 0)] as the right operand of [*], for the product
    that [so] refers to. *)
Definition unitPrice (so : StockOut.t) : Num.t :=
  let product := findProduct (StockOut.productId so) in
  JS.ToNumber (JS.or (optPrice product) (PNumber Num.zero)).

Definition stockOutRevenue : Num.t :=
  fold_left
    (fun acc so => acc + (JS.Number (StockOut.quantity so) * unitPrice so))
    (filter isSale stockOuts) Num.zero.

Definition totalRevenue : Num.t := baseRevenue + stockOutRevenue.

Definition totalExpenses : Num.t :=
  fold_left
    (fun acc e => acc + Num.orZero (JS.Number (Expense.amount e)))
    expenses Num.zero.

(** [s.items || []] *)
Definition itemsOf (s : Sale.t) : list SaleItem.t :=
  match Sale.items s with
  | Some l => l
  | None => []
  end.

(** The local [cost] of the inner reducer. *)
Definition itemCost (item : SaleItem.t) : Num.t :=
  let product := findProduct (SaleItem.productId item) in
  match product with
  | Some p => Num.orZero (JS.Number (Product.cost p))
  | None => Num.zero
  end.

Definition saleCogs (s : Sale.t) : Num.t :=
  fold_left
    (fun itemAcc item =>
       itemAcc
       + (itemCost item * Num.orZero (JS.Number (SaleItem.quantity item))))
    (itemsOf s) Num.zero.

Definition salesProfit : Num.t :=
  fold_left
    (fun acc s => acc + (JS.Number (Sale.total s) - saleCogs s))
    sales Num.zero.

(** The reducer of [stockOutProfit]. *)
Definition profitStep (acc : Num.t) (so : StockOut.t) : Num.t :=
  match findProduct (StockOut.productId so) with
  | None => acc
  | Some p =>
      let profitPerUnit :=
        JS.Number (Product.price p) - JS.Number (Product.cost p) in
      acc + (profitPerUnit * JS.Number (StockOut.quantity so))
  end.

Definition stockOutProfit : Num.t :=
  fold_left profitStep (filter isSale stockOuts) Num.zero.

Definition totalProfit : Num.t :=
  (salesProfit + stockOutProfit) - totalExpenses.

Definition totalSalesCount : nat :=
  (List.length sales + List.length (filter isSale stockOuts))%nat.

(** [p => (Number(p.stock) || 0) <= (Number(p.minStock) || 0)] *)
Definition isLowStock (p : Product.t) : bool :=
  Num.orZero (JS.Number (Product.stock p))
  <=? Num.orZero (JS.Number (Product.minStock p)).

Definition lowStockCount : nat := List.length (filter isLowStock products).

Definition stats : DashboardStats.t :=
  {| DashboardStats.totalRevenue := totalRevenue;
     DashboardStats.totalProfit := totalProfit;
     DashboardStats.totalSales := totalSalesCount;
     DashboardStats.totalExpenses := totalExpenses;
     DashboardStats.lowStockCount := lowStockCount |}.

End Engine.

(** The memo as a function of the current state. *)
Definition statsOf (st : State) : DashboardStats.t :=
  stats (products st) (sales st) (expenses st) (stockOuts st).

(* ================================================================== *)
(** ** Action handlers *)
(* ================================================================== *)

(** A handler is the function from the state before the call to the state
    once React has applied its queued updates. *)

Definition withProducts (st : State) (ps : list Product.t) : State :=
  {| products := ps; sales := sales st; expenses := expenses st;
     stockOuts := stockOuts st; shopSettings := shopSettings st |}.

Definition handleUpdateProduct (updatedProduct : Product.t) (st : State)
  : State :=
  withProducts st
    (map (fun p =>
            if String.eqb (Product.id p) (Product.id updatedProduct)
            then updatedProduct else p)
         (products st)).

Definition handleAddProduct (newProduct : Product.t) (st : State) : State :=
  withProducts st (newProduct :: products st).

Definition handleDeleteProduct (productId : string) (st : State) : State :=
  withProducts st
    (filter (fun p => negb (String.eqb (Product.id p) productId))
            (products st)).

Definition handleAddExpense (newExpense : Expense.t) (st : State) : State :=
  {| products := products st; sales := sales st;
     expenses := expenses st ++ [newExpense];
     stockOuts := stockOuts st; shopSettings := shopSettings st |}.

(** The callback that [handleRecordStockOut] maps over the products.
    [clock i] is what [new Date().toISOString()] yields when the callback
    runs on the element at index [i]. *)
Definition decrement (record : StockOut.t) (clock : nat -> string)
  (p : Product.t) (i : nat) : Product.t :=
  if String.eqb (Product.id p) (StockOut.productId record)
  then Product.withStock p
         (PNumber (Num.max Num.zero
                     (JS.Number (Product.stock p)
                      - JS.Number (StockOut.quantity record))%num))
         (clock i)
  else p.

Definition handleRecordStockOut (record : StockOut.t) (clock : nat -> string)
  (st : State) : State :=
  {| products := JS.map (decrement record clock) (products st);
     sales := sales st;
     expenses := expenses st;
     stockOuts := stockOuts st ++ [record];
     shopSettings := shopSettings st |}.

Definition handleUpdateSettings (newSettings : ShopSettings.t) (st : State)
  : State :=
  {| products := products st; sales := sales st; expenses := expenses st;
     stockOuts := stockOuts st; shopSettings := newSettings |}.

(** One call of a handler by the presentation layer. *)
Inductive Action : Type :=
| AddProduct (newProduct : Product.t)
| UpdateProduct (updatedProduct : Product.t)
| DeleteProduct (productId : string)
| AddExpense (newExpense : Expense.t)
| RecordStockOut (record : StockOut.t) (clock : nat -> string)
| UpdateSettings (newSettings : ShopSettings.t).

Definition step (st : State) (a : Action) : State :=
  match a with
  | AddProduct p => handleAddProduct p st
  | UpdateProduct p => handleUpdateProduct p st
  | DeleteProduct pid => handleDeleteProduct pid st
  | AddExpense e => handleAddExpense e st
  | RecordStockOut r clock => handleRecordStockOut r clock st
  | UpdateSettings s => handleUpdateSettings s st
  end.

(** The state after a sequence of calls. *)
Definition run (acts : list Action) (st : State) : State :=
  fold_left step acts st.

(** The states observed after each call of a sequence, in order. *)
Fixpoint trace (acts : list Action) (st : State) : list State :=
  match acts with
  | [] => []
  | a :: rest => step st a :: trace rest (step st a)
  end.

(* ================================================================== *)
(** ** Loading the stores from [localStorage] *)
(* ================================================================== *)

(** Result of a call that may throw. *)
Inductive Outcome (A : Type) : Type :=
| Returns (a : A)
| Throws.
Arguments Returns {A} a.
Arguments Throws {A}.

Definition bind {A B : Type} (m : Outcome A) (k : A -> Outcome B)
  : Outcome B :=
  match m with
  | Returns a => k a
  | Throws => Throws
  end.

Notation "x <- m ;; k" := (bind m (fun x => k))
  (at level 61, m at next level, right associativity).

Section Storage.

(** [localStorage.getItem]: [None] is [null]. *)
Variable getItem : string -> Outcome (option string).
(** [JSON.parse]; [Throws] is its [SyntaxError]. *)
Variable JSON_parse : string -> Outcome Value.
(** Modelled from the spec: [./constants] is not among the sources;
    [INITIAL_PRODUCTS] is the hard-coded seed list of products. *)
Variable INITIAL_PRODUCTS : list Product.t.
Variable loadedAt : string.

(** A [try] block either [return]s a value ([Some]), runs to its end
    ([None]) or throws.  [catch] logs with [console.error] and continues
    to the statement after the block, which returns [fallback]. *)
Definition tryThenReturn (block : Outcome (option Value)) (fallback : Value)
  : Outcome Value :=
  match block with
  | Returns (Some v) => Returns v
  | Returns None => Returns fallback
  | Throws => Returns fallback
  end.

(** [if (saved)] on [string | null]. *)
Definition present (saved : option string) : option string :=
  match saved with
  | Some s => if String.eqb s "" then None else Some s
  | None => None
  end.

(** The [try] block of the four collection initialisers. *)
Definition readArray (key : string) (notArray : Value)
  : Outcome (option Value) :=
  saved <- getItem key ;;
  match present saved with
  | Some text =>
      parsed <- JSON_parse text ;;
      Returns (Some (if JS.isArray parsed then parsed else notArray))
  | None => Returns None
  end.

Definition seed : Value := VArray (map Product.toValue INITIAL_PRODUCTS).

Definition initProducts : Outcome Value :=
  tryThenReturn (readArray "sm_products_v2" seed) seed.

Definition initSales : Outcome Value :=
  tryThenReturn (readArray "sm_sales_v2" (VArray [])) (VArray []).

Definition initExpenses : Outcome Value :=
  tryThenReturn (readArray "sm_expenses_v2" (VArray [])) (VArray []).

Definition initStockOuts : Outcome Value :=
  tryThenReturn (readArray "sm_stockouts_v2" (VArray [])) (VArray []).

Definition initShopSettings : Outcome Value :=
  tryThenReturn
    (saved <- getItem "sm_settings_v2" ;;
     match present saved with
     | Some text => parsed <- JSON_parse text ;; Returns (Some parsed)
     | None => Returns None
     end)
    (ShopSettings.toValue (DEFAULT_SETTINGS loadedAt)).

End Storage.

(** The shape of a [ShopSettings] object: a [returnPolicy] property that is
    itself an object. *)
Definition hasSettingsShape (v : Value) : bool :=
  match v with
  | VObject props =>
      match find (fun kv => String.eqb (fst kv) "returnPolicy") props with
      | Some (_, VObject _) => true
      | _ => false
      end
  | _ => false
  end.

(* ================================================================== *)
(** ** The specification's formulas *)
(* ================================================================== *)

Section Formulas.

Local Open Scope num_scope.

(** [acc] with the values of [f] added one after the other, in the order
    of the sequence. *)
Fixpoint sumFrom {A : Type} (acc : Num.t) (f : A -> Num.t) (l : list A)
  : Num.t :=
  match l with
  | [] => acc
  | x :: r => sumFrom (acc + f x) f r
  end.

(** The sum of [f] over a sequence: the values are added to 0 one after the
    other, in the order of the sequence. *)
Definition sumOf {A : Type} (f : A -> Num.t) (l : list A) : Num.t :=
  sumFrom Num.zero f l.

(** The number of elements that satisfy [f]. *)
Fixpoint countOf {A : Type} (f : A -> bool) (l : list A) : nat :=
  match l with
  | [] => 0
  | x :: r => ((if f x then 1 else 0) + countOf f r)%nat
  end.

Variable products : list Product.t.

(** The product a reference designates, if any: the first with that id. *)
Definition matching (pid : string) : option Product.t :=
  match filter (fun p => String.eqb (Product.id p) pid) products with
  | p :: _ => Some p
  | [] => None
  end.

(** Quantity times the matching product's price, 0 when none matches. *)
Definition revenueOf (so : StockOut.t) : Num.t :=
  JS.Number (StockOut.quantity so)
  * match matching (StockOut.productId so) with
    | Some p => JS.ToNumber (JS.or (Product.price p) (PNumber Num.zero))
    | None => Num.zero
    end.

(** Matching product's cost times the item's quantity, cost 0 when none
    matches. *)
Definition cogsOf (item : SaleItem.t) : Num.t :=
  match matching (SaleItem.productId item) with
  | Some p => Num.orZero (JS.Number (Product.cost p))
  | None => Num.zero
  end
  * Num.orZero (JS.Number (SaleItem.quantity item)).

(** A sale's total minus the cost of its line items. *)
Definition saleProfitOf (s : Sale.t) : Num.t :=
  JS.Number (Sale.total s)
  - sumOf cogsOf (match Sale.items s with Some l => l | None => [] end).

(** Whether a product matches the stock-out. *)
Definition hasMatch (so : StockOut.t) : bool :=
  match matching (StockOut.productId so) with
  | Some _ => true
  | None => false
  end.

(** (price - cost) times quantity, zero when no product matches. *)
Definition stockOutProfitOf (so : StockOut.t) : Num.t :=
  match matching (StockOut.productId so) with
  | Some p =>
      (JS.Number (Product.price p) - JS.Number (Product.cost p))
      * JS.Number (StockOut.quantity so)
  | None => Num.zero
  end.

Definition saleReason (so : StockOut.t) : bool :=
  String.eqb (StockOut.reason so) "Sale".

Definition revenueFormula (sales : list Sale.t)
  (stockOuts : list StockOut.t) : Num.t :=
  sumOf (fun s => Num.orZero (JS.Number (Sale.total s))) sales
  + sumOf revenueOf (filter saleReason stockOuts).

Definition profitFormula (sales : list Sale.t) (expenses : list Expense.t)
  (stockOuts : list StockOut.t) : Num.t :=
  (sumOf saleProfitOf sales
   + sumOf stockOutProfitOf (filter hasMatch (filter saleReason stockOuts)))
  - sumOf (fun e => Num.orZero (JS.Number (Expense.amount e))) expenses.

End Formulas.

(** The same formulas with every property read by [Number] alone. *)
Section PlainFormulas.

Local Open Scope num_scope.

Variable products : list Product.t.

Definition plainRevenueOf (so : StockOut.t) : Num.t :=
  JS.Number (StockOut.quantity so)
  * match matching products (StockOut.productId so) with
    | Some p => JS.Number (Product.price p)
    | None => Num.zero
    end.

Definition plainCogsOf (item : SaleItem.t) : Num.t :=
  match matching products (SaleItem.productId item) with
  | Some p => JS.Number (Product.cost p)
  | None => Num.zero
  end
  * JS.Number (SaleItem.quantity item).

Definition plainSaleProfitOf (s : Sale.t) : Num.t :=
  JS.Number (Sale.total s)
  - sumOf plainCogsOf (match Sale.items s with Some l => l | None => [] end).

Definition plainRevenue (sales : list Sale.t) (stockOuts : list StockOut.t)
  : Num.t :=
  sumOf (fun s => JS.Number (Sale.total s)) sales
  + sumOf plainRevenueOf (filter saleReason stockOuts).

Definition plainProfit (sales : list Sale.t) (expenses : list Expense.t)
  (stockOuts : list StockOut.t) : Num.t :=
  (sumOf plainSaleProfitOf sales
   + sumOf (stockOutProfitOf products)
       (filter (hasMatch products) (filter saleReason stockOuts)))
  - sumOf (fun e => JS.Number (Expense.amount e)) expenses.

End PlainFormulas.

(** A property that converts to a number, i.e. not to [NaN]. *)
Definition isNumber (v : Primitive) : Prop :=
  Num.isNaN (JS.Number v) = false.

(** Order on numbers as a proposition: [NaN] is related to nothing. *)
Definition numLe (a b : Num.t) : Prop :=
  match a, b with
  | Num.Fin x, Num.Fin y => (x <= y)%Qc
  | Num.NegInf, (Num.NegInf | Num.Fin _ | Num.PosInf) => True
  | Num.Fin _, Num.PosInf => True
  | Num.PosInf, Num.PosInf => True
  | _, _ => False
  end.

Definition numLt (a b : Num.t) : Prop :=
  match a, b with
  | Num.Fin x, Num.Fin y => (x < y)%Qc
  | Num.NegInf, (Num.Fin _ | Num.PosInf) => True
  | Num.Fin _, Num.PosInf => True
  | _, _ => False
  end.

(** A product's stock quantity is a non-negative number. *)
Definition stockNonNeg (p : Product.t) : Prop :=
  numLe Num.zero (JS.Number (Product.stock p)).

Definition allStockNonNeg (st : State) : Prop :=
  Forall stockNonNeg (products st).

(** The calls that keep the stock floor: a product handed to [AddProduct]
    or [UpdateProduct] has a non-negative stock, and a recorded quantity is
    a finite number. *)
Definition admissible (a : Action) : Prop :=
  match a with
  | AddProduct p | UpdateProduct p => stockNonNeg p
  | RecordStockOut r _ =>
      Num.isFinite (JS.Number (StockOut.quantity r)) = true
  | DeleteProduct _ | AddExpense _ | UpdateSettings _ => True
  end.

(* ================================================================== *)
(** ** Concrete shops *)
(* ================================================================== *)

Module Scenario.

Definition day : string := "2024-01-01T00:00:00.000Z".

Definition num (z : Z) : Primitive := PNumber (Num.ofZ z).

(** One product: price 100, cost 60, stock 10. *)
Definition widget : Product.t :=
  Product.mk "p1" "Widget" (num 100) (num 60) (num 10) (num 2) day [].

(** One sale of one widget, total 100. *)
Definition sale1 : Sale.t :=
  Sale.mk "s1" (Some [SaleItem.mk "p1" (num 1) (num 100)]) (num 100) day.

(** Two widgets sold through a stock-out. *)
Definition out1 : StockOut.t := StockOut.mk "o1" "p1" (num 2) "Sale" day.

Definition settings : ShopSettings.t := DEFAULT_SETTINGS day.

Definition empty : State := mkState [] [] [] [] settings.

Definition shop : State := mkState [widget] [sale1] [] [out1] settings.

Definition clock (i : nat) : string := "2024-01-02T00:00:00.000Z".

(** A product whose stock is [stock] and whose threshold is [minStock]. *)
Definition stocked (stock minStock : Primitive) : Product.t :=
  Product.mk "p2" "Gadget" (num 10) (num 5) stock minStock day [].

(** A product entered with a stock of -5. *)
Definition negative : Product.t := stocked (num (-5)) (num 0).

(** A stock-out of the widget whose quantity is not a number. *)
Definition outNaN : StockOut.t :=
  StockOut.mk "o2" "p1" (PNumber Num.NaN) "Damaged" day.

(** A stock-out of 12 widgets, two more than there are. *)
Definition out12 : StockOut.t :=
  StockOut.mk "o3" "p1" (num 12) "Damaged" day.

(** A stock-out of a product that is not in the store. *)
Definition outGhost : StockOut.t :=
  StockOut.mk "o4" "ghost" (num 3) "Sale" day.

(** A sale record without [total], as left by an older version. *)
Definition saleNoTotal : Sale.t := Sale.mk "s0" (Some []) PUndefined day.

(** A sale recorded as a stock-out, without [quantity]. *)
Definition outNoQuantity : StockOut.t :=
  StockOut.mk "o5" "p1" PUndefined "Sale" day.

(** A store in which every key holds the JSON text [null]. *)
Definition getItemNull (key : string) : Outcome (option string) :=
  Returns (Some "null").

(** [JSON.parse] restricted to the one text the store above holds. *)
Definition parseNull (text : string) : Outcome Value :=
  if String.eqb text "null" then Returns (VPrimitive PNull) else Throws.

End Scenario.

(* ================================================================== *)
(** ** Writing the stores back to [localStorage] *)
(* ================================================================== *)

(** The contents of [localStorage]: the text under each key, if any. *)
Definition Store : Type := string -> option string.

(** The contents once [value] is stored under [key]. *)
Definition write (key value : string) (s : Store) : Store :=
  fun k => if String.eqb k key then Some value else s k.

(** [localStorage.getItem] on given contents. *)
Definition getItemOf (s : Store) (key : string) : Outcome (option string) :=
  Returns (s key).

Section Persistence.

(** Whether the browser accepts the contents; [setItem] throws its
    [QuotaExceededError] when it does not. *)
Variable quotaOk : Store -> bool.
(** [JSON.stringify] on the value of a slot. *)
Variable JSON_stringify : Value -> string.

(** [localStorage.setItem(key, value)] *)
Definition setItem (key value : string) (s : Store) : Outcome Store :=
  if quotaOk (write key value s) then Returns (write key value s)
  else Throws.

(** The five [useEffect] bodies; none has a [try]. *)
Definition saveProducts (products : Value) (s : Store) : Outcome Store :=
  setItem "sm_products_v2" (JSON_stringify products) s.

Definition saveSales (sales : Value) (s : Store) : Outcome Store :=
  setItem "sm_sales_v2" (JSON_stringify sales) s.

Definition saveExpenses (expenses : Value) (s : Store) : Outcome Store :=
  setItem "sm_expenses_v2" (JSON_stringify expenses) s.

Definition saveStockOuts (stockOuts : Value) (s : Store) : Outcome Store :=
  setItem "sm_stockouts_v2" (JSON_stringify stockOuts) s.

Definition saveShopSettings (shopSettings : Value) (s : Store)
  : Outcome Store :=
  setItem "sm_settings_v2" (JSON_stringify shopSettings) s.

End Persistence.

(** The keys of the five slots. *)
Definition storeKeys : list string :=
  ["sm_products_v2"; "sm_sales_v2"; "sm_expenses_v2"; "sm_stockouts_v2";
   "sm_settings_v2"].

(** The five slots, to speak of the five initialisers and the five
    effects together. *)
Inductive Slot : Type := Products | Sales | Expenses | StockOuts | Settings.

(** The key under which a slot is kept. *)
Definition keyOf (slot : Slot) : string :=
  match slot with
  | Products => "sm_products_v2"
  | Sales => "sm_sales_v2"
  | Expenses => "sm_expenses_v2"
  | StockOuts => "sm_stockouts_v2"
  | Settings => "sm_settings_v2"
  end.

(** The effect of a slot. *)
Definition save (quotaOk : Store -> bool) (JSON_stringify : Value -> string)
  (slot : Slot) : Value -> Store -> Outcome Store :=
  match slot with
  | Products => saveProducts quotaOk JSON_stringify
  | Sales => saveSales quotaOk JSON_stringify
  | Expenses => saveExpenses quotaOk JSON_stringify
  | StockOuts => saveStockOuts quotaOk JSON_stringify
  | Settings => saveShopSettings quotaOk JSON_stringify
  end.

(** The initialiser of a slot, run on given contents of [localStorage]. *)
Definition load (JSON_parse : string -> Outcome Value)
  (INITIAL_PRODUCTS : list Product.t) (loadedAt : string) (slot : Slot)
  (s : Store) : Outcome Value :=
  match slot with
  | Products => initProducts (getItemOf s) JSON_parse INITIAL_PRODUCTS
  | Sales => initSales (getItemOf s) JSON_parse
  | Expenses => initExpenses (getItemOf s) JSON_parse
  | StockOuts => initStockOuts (getItemOf s) JSON_parse
  | Settings => initShopSettings (getItemOf s) JSON_parse loadedAt
  end.

(** What an initialiser cannot parse under [key]: reading throws, there is
    no text or an empty one, or the text is not JSON. *)
Definition unparsable (getItem : string -> Outcome (option string))
  (JSON_parse : string -> Outcome Value) (key : string) : Prop :=
  getItem key = Throws
  \/ getItem key = Returns None
  \/ getItem key = Returns (Some "")
  \/ exists text, getItem key = Returns (Some text)
                  /\ JSON_parse text = Throws.

(** What a collection initialiser cannot use under [key]: the above, or
    JSON that is not an array. *)
Definition unusable (getItem : string -> Outcome (option string))
  (JSON_parse : string -> Outcome Value) (key : string) : Prop :=
  unparsable getItem JSON_parse key
  \/ exists text v, getItem key = Returns (Some text)
                    /\ JSON_parse text = Returns v
                    /\ JS.isArray v = false.

(* ================================================================== *)
(** ** The header title *)
(* ================================================================== *)

(** [s.replace(from, to)] for one-character strings [from] and [to]: the
    first occurrence is replaced, the others are kept. *)
Fixpoint replaceFirst (from to : ascii) (s : string) : string :=
  match s with
  | EmptyString => EmptyString
  | String c r =>
      if Ascii.eqb c from then String to r
      else String c (replaceFirst from to r)
  end.

(** [activeView.replace('_', ' ')] *)
Definition headerTitle (activeView : string) : string :=
  replaceFirst "_"%char " "%char activeView.

(* ================================================================== *)
(** ** What a sequence of calls records *)
(* ================================================================== *)

(** The expenses handed to [AddExpense], in call order. *)
Definition addedExpenses (acts : list Action) : list Expense.t :=
  flat_map (fun a => match a with AddExpense e => [e] | _ => [] end) acts.

(** The records handed to [RecordStockOut], in call order. *)
Definition recordedStockOuts (acts : list Action) : list StockOut.t :=
  flat_map (fun a => match a with RecordStockOut r _ => [r] | _ => [] end)
    acts.

Definition isUpdateSettings (a : Action) : bool :=
  match a with UpdateSettings _ => true | _ => false end.

(** What the money metrics read of a product. *)
Definition priceCost (p : Product.t) : Primitive * Primitive :=
  (Product.price p, Product.cost p).

(** Two product lists resolve every id to the same price and cost. *)
Definition sameLookups (ps ps' : list Product.t) : Prop :=
  forall pid,
    option_map priceCost (findProduct ps pid)
    = option_map priceCost (findProduct ps' pid).

(** No line item and no sale-reason stock-out refers to [pid]. *)
Definition unreferenced (pid : string) (st : State) : Prop :=
  (forall s item, In s (sales st) -> In item (itemsOf s) ->
                  SaleItem.productId item <> pid)
  /\ (forall so, In so (stockOuts st) -> isSale so = true ->
                 StockOut.productId so <> pid).

Module Sample.

(** A browser that accepts everything. *)
Definition roomy (s : Store) : bool := true.

(** [JSON.stringify] and [JSON.parse] on the empty array. *)
Definition stringifyEmpty (v : Value) : string := "[]".

Definition parseEmpty (text : string) : Outcome Value :=
  if String.eqb text "[]" then Returns (VArray []) else Throws.

Definition noStore : Store := fun _ => None.

(** A second product. *)
Definition gadget : Product.t :=
  Product.mk "p2" "Gadget" (Scenario.num 10) (Scenario.num 5)
    (Scenario.num 4) (Scenario.num 1) Scenario.day [].

(** The widget at a new price. *)
Definition widget120 : Product.t :=
  Product.mk "p1" "Widget" (Scenario.num 120) (Scenario.num 60)
    (Scenario.num 10) (Scenario.num 2) Scenario.day [].

Definition rent : Expense.t :=
  Expense.mk "e1" (Scenario.num 30) "Rent" Scenario.day.

(** Three widgets written off. *)
Definition out3 : StockOut.t :=
  StockOut.mk "o6" "p1" (Scenario.num 3) "Damaged" Scenario.day.

Definition newPolicy : ShopSettings.t :=
  ShopSettings.mk (ShopSettings.mkPolicy true "No returns." Scenario.day).

End Sample.

(* ================================================================== *)
(** ** Facts about numbers *)
(* ================================================================== *)

Module NumFacts.

Import Num.
Local Open Scope num_scope.

Lemma zero_eq : zero = Fin (Q2Qc 0%Q).
Proof. reflexivity. Qed.

(** The boolean comparisons decide the order. *)
Lemma leb_le (a b : t) : (a <=? b) = true <-> numLe a b.
Proof.
  destruct a, b; simpl; try (split; (easy || discriminate)).
  rewrite Qcle_alt. destruct (Qccompare q q0); split; congruence || easy.
Qed.

Lemma ltb_lt (a b : t) : (a <? b) = true <-> numLt a b.
Proof.
  destruct a, b; simpl; try (split; (easy || discriminate)).
  rewrite Qclt_alt. destruct (Qccompare q q0); split; congruence || easy.
Qed.

Lemma sgn_Eq (q : Qc) : sgn q = Eq -> Fin q = zero.
Proof.
  unfold sgn. intros H. apply Qceq_alt in H. now subst.
Qed.

(** [a || 0] is never [NaN], and is [a] itself unless [a] is [NaN]. *)
Lemma orZero_not_NaN (a : t) : isNaN (orZero a) = false.
Proof. unfold orZero. destruct a; simpl; try reflexivity.
  destruct (sgn q); reflexivity. Qed.

Lemma orZero_id (a : t) : isNaN a = false -> orZero a = a.
Proof.
  unfold orZero. destruct a; simpl; try easy.
  intros _. destruct (sgn q) eqn:E; try reflexivity.
  symmetry. now apply sgn_Eq.
Qed.

Lemma orZero_NaN : orZero NaN = zero.
Proof. reflexivity. Qed.

Lemma le_zero_zero : numLe zero zero.
Proof. apply leb_le. reflexivity. Qed.

(** *** Rounding keeps the sign *)

Lemma dyadic_nonneg (m e : Z) : (0 <= m)%Z -> (Q2Qc 0%Q <= dyadic m e)%Qc.
Proof.
  intros Hm. unfold Qcle, dyadic, Q2Qc. cbn [this].
  rewrite !Qred_correct.
  apply Qmult_le_0_compat.
  - change (inject_Z 0 <= inject_Z m)%Q. now rewrite <- Zle_Qle.
  - apply Qpower_0_le. discriminate.
Qed.

(** A positive rational rounds to a non-negative value or to [Infinity]. *)
Lemma roundPos_sign (n d : positive) :
  roundPos n d = PosInf
  \/ exists y, roundPos n d = Fin y /\ (Q2Qc 0%Q <= y)%Qc.
Proof.
  unfold roundPos.
  set (k := (Z.log2 (Z.pos n) - Z.log2 (Z.pos d))%Z).
  set (above := if (0 <=? k)%Z then _ else _).
  set (e := Z.max _ (-1074)).
  set (N := if (0 <=? e)%Z then Z.pos n else _).
  set (D := if (0 <=? e)%Z then _ else Z.pos d).
  set (m := match (2 * (N mod D) ?= D)%Z with Lt => _ | Eq => _ | Gt => _ end).
  destruct ((0 <=? e)%Z && (2 ^ 1024 <=? m * 2 ^ e)%Z); [now left|].
  right. exists (dyadic m e). split; [reflexivity|].
  apply dyadic_nonneg.
  assert (HN : (0 <= N)%Z).
  { subst N. destruct (0 <=? e)%Z; [lia|].
    apply Z.mul_nonneg_nonneg; [lia|]. apply Z.pow_nonneg. lia. }
  assert (HD : (0 < D)%Z).
  { subst D. destruct (0 <=? e)%Z eqn:E; [|lia].
    apply Z.leb_le in E. apply Z.mul_pos_pos; [lia|].
    apply Z.pow_pos_nonneg; lia. }
  assert (Hq : (0 <= N / D)%Z) by now apply Z.div_pos.
  subst m. destruct (2 * (N mod D) ?= D)%Z; [destruct (Z.even _)| |]; lia.
Qed.

Lemma round64_cases (x : Qc) :
  (exists y, round64 x = Fin y
             /\ ((Q2Qc 0%Q <= x)%Qc -> (Q2Qc 0%Q <= y)%Qc)
             /\ ((x <= Q2Qc 0%Q)%Qc -> (y <= Q2Qc 0%Q)%Qc))
  \/ (round64 x = PosInf /\ (Q2Qc 0%Q < x)%Qc)
  \/ (round64 x = NegInf /\ (x < Q2Qc 0%Q)%Qc).
Proof.
  unfold round64. destruct x as [[n d] Hc]. simpl.
  destruct n as [|n|n].
  - left. exists (Q2Qc 0%Q). repeat split; intros _; apply Qcle_refl.
  - destruct (roundPos_sign n d) as [H|[y [H Hy]]]; rewrite H.
    + right. left. split; [reflexivity|]. now unfold Qclt, Qlt.
    + left. exists y. repeat split; [now intros _|].
      intros Hx. exfalso. unfold Qcle, Qle in Hx. simpl in Hx. lia.
  - destruct (roundPos_sign n d) as [H|[y [H Hy]]]; rewrite H; simpl.
    + right. right. split; [reflexivity|]. now unfold Qclt, Qlt.
    + left. exists (- y)%Qc. repeat split.
      * intros Hx. exfalso. unfold Qcle, Qle in Hx. simpl in Hx. lia.
      * intros _. apply Qcopp_le_compat in Hy.
        replace (- Q2Qc 0%Q)%Qc with (Q2Qc 0%Q) in Hy; [exact Hy|].
        now apply Qc_is_canon.
Qed.

(** The rounded result of an operation on finite values is a number. *)
Lemma round64_not_NaN (x : Qc) : isNaN (round64 x) = false.
Proof.
  destruct (round64_cases x) as [[y [H _]]|[[H _]|[H _]]]; now rewrite H.
Qed.

Lemma round64_nonneg (x : Qc) :
  (Q2Qc 0%Q <= x)%Qc -> numLe zero (round64 x).
Proof.
  intros Hx.
  destruct (round64_cases x) as [[y [H [Hy _]]]|[[H _]|[H Hlt]]]; rewrite H.
  - now apply Hy.
  - exact I.
  - exfalso. now apply (Qclt_not_le _ _ Hlt).
Qed.

Lemma round64_nonpos (x : Qc) :
  (x <= Q2Qc 0%Q)%Qc -> numLe (round64 x) zero.
Proof.
  intros Hx.
  destruct (round64_cases x) as [[y [H [_ Hy]]]|[[H Hlt]|[H _]]]; rewrite H.
  - now apply Hy.
  - exfalso. now apply (Qclt_not_le _ _ Hlt).
  - exact I.
Qed.

(** *** [Math.max(0, y)] *)

(** It is at least 0 whenever [y] is a number. *)
Lemma max_zero_nonneg (y : t) : isNaN y = false -> numLe zero (max zero y).
Proof.
  destruct y as [| |q|]; intros H.
  - discriminate.
  - exact le_zero_zero.
  - change (max zero (Fin q)) with
      (if zero <? Fin q then Fin q else zero).
    destruct (zero <? Fin q) eqn:E.
    + apply ltb_lt in E. now apply Qclt_le_weak.
    + exact le_zero_zero.
  - exact I.
Qed.

(** It is 0 when [y] is at most 0. *)
Lemma max_zero_nonpos (y : t) : numLe y zero -> max zero y = zero.
Proof.
  destruct y as [| |q|]; try easy. intros Hy.
  change (max zero (Fin q)) with (if zero <? Fin q then Fin q else zero).
  destruct (zero <? Fin q) eqn:E; [|reflexivity].
  apply ltb_lt in E. exfalso. now apply (Qclt_not_le _ _ E).
Qed.

(** It is [y] when [y] is at least 0. *)
Lemma max_zero_id (y : t) : numLe zero y -> max zero y = y.
Proof.
  destruct y as [| |q|]; try easy. intros Hy.
  change (max zero (Fin q)) with (if zero <? Fin q then Fin q else zero).
  destruct (zero <? Fin q) eqn:E; [reflexivity|].
  destruct (Qcle_lt_or_eq _ _ Hy) as [Hlt|Heq].
  - apply (proj2 (ltb_lt zero (Fin q))) in Hlt. congruence.
  - now rewrite <- Heq.
Qed.

Lemma sub_Fin (a b : Qc) : Fin a - Fin b = round64 (a + - b)%Qc.
Proof. reflexivity. Qed.

(** Below the floor: a quantity above the stock leaves exactly 0. *)
Lemma max_zero_sub_lt (s q : t) :
  numLe zero s -> numLt s q -> max zero (s - q) = zero.
Proof.
  destruct s as [| |a|], q as [| |b|]; try easy.
  intros _ Hlt. rewrite sub_Fin. apply max_zero_nonpos, round64_nonpos.
  simpl in Hlt. apply Qclt_le_weak, Qcle_minus_iff in Hlt.
  apply Qcopp_le_compat in Hlt.
  replace (- (b + - a))%Qc with (a + - b)%Qc in Hlt by ring.
  replace (- Q2Qc 0%Q)%Qc with (Q2Qc 0%Q) in Hlt; [exact Hlt|].
  now apply Qc_is_canon.
Qed.

(** A non-negative number minus a finite one is a number. *)
Lemma sub_finite_not_NaN (s q : t) :
  numLe zero s -> isFinite q = true -> isNaN (s - q) = false.
Proof.
  destruct s as [| |a|], q as [| |b|]; try easy.
  intros _ _. rewrite sub_Fin. apply round64_not_NaN.
Qed.

End NumFacts.

(* ================================================================== *)
(** ** Facts about the calculation engine *)
(* ================================================================== *)

Section EngineFacts.

Local Open Scope num_scope.

(** A [reduce] that adds [f x] to its accumulator adds the values of [f]
    one after the other. *)
Lemma reduce_add_sum {A : Type} (f : A -> Num.t) (l : list A) (a : Num.t) :
  fold_left (fun acc x => acc + f x) l a = sumFrom a f l.
Proof.
  revert a. induction l as [|x r IH]; intros a; simpl; [reflexivity|].
  apply IH.
Qed.

Lemma reduce_sum {A : Type} (f : A -> Num.t) (l : list A) :
  fold_left (fun acc x => acc + f x) l Num.zero = sumOf f l.
Proof. apply reduce_add_sum. Qed.

Lemma sumFrom_ext_in {A : Type} (f g : A -> Num.t) (l : list A)
  (a : Num.t) :
  (forall x, In x l -> f x = g x) -> sumFrom a f l = sumFrom a g l.
Proof.
  revert a. induction l as [|x r IH]; intros a E; simpl; [reflexivity|].
  rewrite (E x) by now left.
  apply IH. intros y Hy. apply E. now right.
Qed.

Lemma sumOf_ext {A : Type} (f g : A -> Num.t) (l : list A) :
  (forall x, f x = g x) -> sumOf f l = sumOf g l.
Proof. intros E. apply sumFrom_ext_in. intros x _. apply E. Qed.

Lemma length_filter_count {A : Type} (f : A -> bool) (l : list A) :
  List.length (filter f l) = countOf f l.
Proof.
  induction l as [|x r IH]; simpl; [reflexivity|].
  destruct (f x); simpl; now rewrite IH.
Qed.

Variable products : list Product.t.

(** [find] returns the first element that [filter] keeps. *)
Lemma findProduct_matching (pid : string) :
  findProduct products pid = matching products pid.
Proof.
  unfold findProduct, matching.
  induction products as [|p r IH]; simpl; [reflexivity|].
  destruct (String.eqb (Product.id p) pid); [reflexivity|exact IH].
Qed.

Lemma unitPrice_formula (so : StockOut.t) :
  JS.Number (StockOut.quantity so) * unitPrice products so
  = revenueOf products so.
Proof.
  unfold unitPrice, revenueOf. rewrite findProduct_matching.
  destruct (matching products (StockOut.productId so)); reflexivity.
Qed.

Lemma itemCost_formula (item : SaleItem.t) :
  itemCost products item * Num.orZero (JS.Number (SaleItem.quantity item))
  = cogsOf products item.
Proof.
  unfold itemCost, cogsOf. now rewrite findProduct_matching.
Qed.

Lemma saleCogs_formula (s : Sale.t) :
  saleCogs products s
  = sumOf (cogsOf products)
      (match Sale.items s with Some l => l | None => [] end).
Proof.
  unfold saleCogs, itemsOf.
  rewrite (reduce_sum
             (fun item => itemCost products item
                          * Num.orZero (JS.Number (SaleItem.quantity item)))).
  apply sumOf_ext, itemCost_formula.
Qed.

(** The reducer of [stockOutProfit] adds the profit of a stock-out that
    has a product and passes over one that has none. *)
Lemma profitStep_formula (acc : Num.t) (so : StockOut.t) :
  profitStep products acc so
  = if hasMatch products so then acc + stockOutProfitOf products so
    else acc.
Proof.
  unfold profitStep, stockOutProfitOf, hasMatch.
  rewrite findProduct_matching.
  destruct (matching products (StockOut.productId so)); reflexivity.
Qed.

Lemma profitStep_sum (l : list StockOut.t) (acc : Num.t) :
  fold_left (profitStep products) l acc
  = sumFrom acc (stockOutProfitOf products) (filter (hasMatch products) l).
Proof.
  revert acc. induction l as [|so r IH]; intros acc; simpl; [reflexivity|].
  rewrite IH, profitStep_formula.
  destruct (hasMatch products so); reflexivity.
Qed.

Lemma fold_left_ext {A B : Type} (f g : B -> A -> B) (l : list A) (b : B) :
  (forall acc x, f acc x = g acc x) -> fold_left f l b = fold_left g l b.
Proof.
  intros E. revert b. induction l as [|x r IH]; intros b; simpl.
  - reflexivity.
  - now rewrite E, IH.
Qed.

Lemma baseRevenue_formula (sales : list Sale.t) :
  baseRevenue sales
  = sumOf (fun s => Num.orZero (JS.Number (Sale.total s))) sales.
Proof.
  unfold baseRevenue.
  apply (reduce_sum (fun s => Num.orZero (JS.Number (Sale.total s)))).
Qed.

Lemma stockOutRevenue_formula (stockOuts : list StockOut.t) :
  stockOutRevenue products stockOuts
  = sumOf (revenueOf products) (filter saleReason stockOuts).
Proof.
  unfold stockOutRevenue.
  rewrite (reduce_sum
             (fun so => JS.Number (StockOut.quantity so)
                        * unitPrice products so)).
  apply sumOf_ext, unitPrice_formula.
Qed.

Lemma totalExpenses_formula (expenses : list Expense.t) :
  totalExpenses expenses
  = sumOf (fun e => Num.orZero (JS.Number (Expense.amount e))) expenses.
Proof.
  unfold totalExpenses.
  apply (reduce_sum (fun e => Num.orZero (JS.Number (Expense.amount e)))).
Qed.

Lemma salesProfit_formula (sales : list Sale.t) :
  salesProfit products sales = sumOf (saleProfitOf products) sales.
Proof.
  unfold salesProfit.
  rewrite (reduce_sum
             (fun s => JS.Number (Sale.total s) - saleCogs products s)).
  apply sumOf_ext. intros s. unfold saleProfitOf.
  now rewrite saleCogs_formula.
Qed.

Lemma stockOutProfit_formula (stockOuts : list StockOut.t) :
  stockOutProfit products stockOuts
  = sumOf (stockOutProfitOf products)
      (filter (hasMatch products) (filter saleReason stockOuts)).
Proof. unfold stockOutProfit. apply profitStep_sum. Qed.

End EngineFacts.

Lemma matching_In (ps : list Product.t) (pid : string) (p : Product.t) :
  matching ps pid = Some p -> In p ps.
Proof.
  unfold matching.
  destruct (filter _ ps) as [|q r] eqn:E; intros H; inversion H; subst.
  assert (Hin : In p (filter (fun p0 => String.eqb (Product.id p0) pid) ps))
    by (rewrite E; now left).
  now apply filter_In in Hin.
Qed.

(* ================================================================== *)
(** ** Properties that hold numbers *)
(* ================================================================== *)

Section NumberFacts.

Local Open Scope num_scope.

Lemma sumOf_ext_in {A : Type} (f g : A -> Num.t) (l : list A) :
  (forall x, In x l -> f x = g x) -> sumOf f l = sumOf g l.
Proof. apply sumFrom_ext_in. Qed.

(** [Number(v) || 0] is [Number(v)] when [v] converts to a number. *)
Lemma orZero_isNumber (v : Primitive) :
  isNumber v -> Num.orZero (JS.Number v) = JS.Number v.
Proof. apply NumFacts.orZero_id. Qed.

(** So is [v || 0] as an operand. *)
Lemma or_zero_isNumber (v : Primitive) :
  isNumber v -> JS.ToNumber (JS.or v (PNumber Num.zero)) = JS.Number v.
Proof.
  unfold isNumber, JS.or. intros H.
  destruct (JS.truthy v) eqn:T; [reflexivity|].
  destruct v as [| |b|n|s]; simpl in *.
  - discriminate H.
  - reflexivity.
  - now rewrite T.
  - destruct n as [| |q|]; try discriminate.
    simpl in T. destruct (Num.sgn q) eqn:E; try discriminate.
    symmetry. now apply NumFacts.sgn_Eq.
  - apply negb_false_iff, String.eqb_eq in T. now subst s.
Qed.

Variable products : list Product.t.

Lemma revenueOf_plain (so : StockOut.t) :
  Forall (fun p => isNumber (Product.price p)) products ->
  revenueOf products so = plainRevenueOf products so.
Proof.
  intros Hp. unfold revenueOf, plainRevenueOf.
  destruct (matching products (StockOut.productId so)) as [p|] eqn:E;
    [|reflexivity].
  apply matching_In in E. rewrite Forall_forall in Hp.
  now rewrite or_zero_isNumber by now apply Hp.
Qed.

Lemma cogsOf_plain (item : SaleItem.t) :
  Forall (fun p => isNumber (Product.cost p)) products ->
  isNumber (SaleItem.quantity item) ->
  cogsOf products item = plainCogsOf products item.
Proof.
  intros Hp Hq. unfold cogsOf, plainCogsOf.
  rewrite (orZero_isNumber _ Hq).
  destruct (matching products (SaleItem.productId item)) as [p|] eqn:E;
    [|reflexivity].
  apply matching_In in E. rewrite Forall_forall in Hp.
  now rewrite orZero_isNumber by now apply Hp.
Qed.

Lemma revenueFormula_plain (sales : list Sale.t)
  (stockOuts : list StockOut.t) :
  Forall (fun s => isNumber (Sale.total s)) sales ->
  Forall (fun p => isNumber (Product.price p)) products ->
  revenueFormula products sales stockOuts
  = plainRevenue products sales stockOuts.
Proof.
  intros Hs Hp. unfold revenueFormula, plainRevenue. f_equal.
  - apply sumOf_ext_in. rewrite Forall_forall in Hs.
    intros s Hin. now apply orZero_isNumber, Hs.
  - apply sumOf_ext. intros so. now apply revenueOf_plain.
Qed.

Lemma profitFormula_plain (sales : list Sale.t) (expenses : list Expense.t)
  (stockOuts : list StockOut.t) :
  Forall (fun p => isNumber (Product.cost p)) products ->
  Forall (fun s => Forall (fun it => isNumber (SaleItem.quantity it))
                     (itemsOf s)) sales ->
  Forall (fun e => isNumber (Expense.amount e)) expenses ->
  profitFormula products sales expenses stockOuts
  = plainProfit products sales expenses stockOuts.
Proof.
  intros Hp Hs He. unfold profitFormula, plainProfit. f_equal; [f_equal|].
  - apply sumOf_ext_in. rewrite Forall_forall in Hs.
    intros s Hin. unfold saleProfitOf, plainSaleProfitOf. f_equal.
    apply sumOf_ext_in. specialize (Hs s Hin).
    rewrite Forall_forall in Hs. unfold itemsOf in Hs.
    intros it Hit. apply cogsOf_plain; [exact Hp | now apply Hs].
  - apply sumOf_ext_in. rewrite Forall_forall in He.
    intros e Hin. now apply orZero_isNumber, He.
Qed.

End NumberFacts.

(* ================================================================== *)
(** ** Facts about the handlers *)
(* ================================================================== *)

Section MapFacts.

Context {A B : Type}.

Lemma mapFrom_length (f : A -> nat -> B) (l : list A) (k : nat) :
  List.length (JS.mapFrom k f l) = List.length l.
Proof.
  revert k. induction l as [|x r IH]; intros k; simpl; [reflexivity|].
  now rewrite IH.
Qed.

Lemma mapFrom_nth_error (f : A -> nat -> B) (l : list A) (k i : nat) :
  nth_error (JS.mapFrom k f l) i
  = option_map (fun x => f x (k + i)) (nth_error l i).
Proof.
  revert k i. induction l as [|x r IH]; intros k [|i]; simpl; try reflexivity.
  - now rewrite Nat.add_0_r.
  - rewrite IH. now rewrite Nat.add_succ_r.
Qed.

Lemma mapFrom_Forall (P : A -> Prop) (Q : B -> Prop) (f : A -> nat -> B)
  (l : list A) (k : nat) :
  (forall x j, P x -> Q (f x j)) -> Forall P l -> Forall Q (JS.mapFrom k f l).
Proof.
  intros Hf H. revert k. induction H as [|x r Hx _ IH]; intros k; simpl.
  - constructor.
  - constructor; [now apply Hf | apply IH].
Qed.

End MapFacts.

Lemma mapFrom_fixed {A : Type} (f : A -> nat -> A) (l : list A) (k : nat) :
  (forall x j, In x l -> f x j = x) -> JS.mapFrom k f l = l.
Proof.
  revert k. induction l as [|x r IH]; intros k Hf; simpl; [reflexivity|].
  rewrite Hf by now left.
  rewrite IH; [reflexivity|]. intros y j Hy. apply Hf. now right.
Qed.

(** What the callback does to one product. *)
Lemma decrement_other (record : StockOut.t) (clock : nat -> string)
  (p : Product.t) (i : nat) :
  Product.id p <> StockOut.productId record ->
  decrement record clock p i = p.
Proof.
  intros H. unfold decrement.
  apply String.eqb_neq in H. now rewrite H.
Qed.

Lemma decrement_match (record : StockOut.t) (clock : nat -> string)
  (p : Product.t) (i : nat) :
  Product.id p = StockOut.productId record ->
  decrement record clock p i
  = Product.withStock p
      (PNumber (Num.max Num.zero
                  (JS.Number (Product.stock p)
                   - JS.Number (StockOut.quantity record))%num))
      (clock i).
Proof.
  intros H. unfold decrement.
  apply String.eqb_eq in H. now rewrite H.
Qed.

Lemma recordStockOut_nth (record : StockOut.t) (clock : nat -> string)
  (st : State) (i : nat) (p : Product.t) :
  nth_error (products st) i = Some p ->
  nth_error (products (handleRecordStockOut record clock st)) i
  = Some (decrement record clock p i).
Proof.
  intros H. simpl. unfold JS.map.
  now rewrite mapFrom_nth_error, H.
Qed.

(** The callback keeps a non-negative stock non-negative when the recorded
    quantity is a finite number. *)
Lemma decrement_stockNonNeg (record : StockOut.t) (clock : nat -> string)
  (p : Product.t) (i : nat) :
  Num.isFinite (JS.Number (StockOut.quantity record)) = true ->
  stockNonNeg p -> stockNonNeg (decrement record clock p i).
Proof.
  intros Hq Hp. unfold decrement.
  destruct (String.eqb (Product.id p) (StockOut.productId record));
    [|exact Hp].
  unfold stockNonNeg. simpl.
  apply NumFacts.max_zero_nonneg.
  now apply NumFacts.sub_finite_not_NaN.
Qed.

Lemma step_stockNonNeg (a : Action) (st : State) :
  admissible a -> allStockNonNeg st -> allStockNonNeg (step st a).
Proof.
  unfold allStockNonNeg.
  destruct a as [p|p|pid|e|r clock|s]; simpl; intros Ha H.
  - now constructor.
  - rewrite Forall_forall in *. intros q Hq.
    apply in_map_iff in Hq. destruct Hq as [x [Hx Hin]].
    destruct (String.eqb (Product.id x) (Product.id p)); subst; auto.
  - rewrite Forall_forall in *. intros q Hq.
    apply filter_In in Hq. now apply H.
  - exact H.
  - apply mapFrom_Forall with (P := stockNonNeg); [|exact H].
    intros x j. now apply decrement_stockNonNeg.
  - exact H.
Qed.

(* ================================================================== *)
(** ** The JavaScript layer on examples *)
(* ================================================================== *)

(** Decides an equation between two computed numbers. *)
Ltac same_number :=
  vm_compute;
  first [ reflexivity | apply f_equal, Qc_is_canon; reflexivity ].

Example number_of_text : JS.Number (PString " 12 ") = Num.ofZ 12.
Proof. same_number. Qed.

Example number_of_word : JS.Number (PString "abc") = Num.NaN.
Proof. reflexivity. Qed.

Example number_of_empty : JS.Number (PString "") = Num.zero.
Proof. reflexivity. Qed.

Example number_of_absent : JS.Number PUndefined = Num.NaN.
Proof. reflexivity. Qed.

Example number_of_null : JS.Number PNull = Num.zero.
Proof. reflexivity. Qed.

Example number_of_exponent : JS.Number (PString "1.5e1") = Num.ofZ 15.
Proof. same_number. Qed.

Example number_of_hex : JS.Number (PString "0x1F") = Num.ofZ 31.
Proof. same_number. Qed.

Example number_of_px : JS.Number (PString "12px") = Num.NaN.
Proof. reflexivity. Qed.

Example number_of_huge : JS.Number (PString "1e999") = Num.PosInf.
Proof. reflexivity. Qed.

Example number_of_odd_integer :
  JS.Number (PString "9007199254740993")
  = JS.Number (PString "9007199254740992").
Proof. same_number. Qed.

Example sum_is_rounded :
  (JS.Number (PString "0.1") + JS.Number (PString "0.2"))%num
  = JS.Number (PString "0.30000000000000004").
Proof. same_number. Qed.

Example sum_is_not_associative :
  ((JS.Number (PString "0.1") + JS.Number (PString "0.2"))
   + JS.Number (PString "0.3"))%num
  <> (JS.Number (PString "0.1")
      + (JS.Number (PString "0.2") + JS.Number (PString "0.3")))%num.
Proof. vm_compute. intros H. inversion H. Qed.

Example sum_overflows :
  (JS.Number (PString "1e308") + JS.Number (PString "1e308"))%num
  = Num.PosInf.
Proof. reflexivity. Qed.

Example sum_absorbs_one :
  (JS.Number (PString "9007199254740992") + Num.ofZ 1)%num
  = JS.Number (PString "9007199254740992").
Proof. same_number. Qed.

Example max_keeps_NaN : Num.max Num.zero Num.NaN = Num.NaN.
Proof. reflexivity. Qed.

Example zero_times_infinity : (Num.zero * Num.PosInf)%num = Num.NaN.
Proof. reflexivity. Qed.

(* ================================================================== *)
(** ** Stock-outs *)
(* ================================================================== *)

(** C6.  A stock-out of a product whose stock is a non-negative number, for
    a quantity strictly above that stock, leaves the product with a stock of
    exactly 0. *)
Theorem recordStockOut_clamps (record : StockOut.t) (clock : nat -> string)
  (st : State) (i : nat) (p : Product.t) :
  nth_error (products st) i = Some p ->
  Product.id p = StockOut.productId record ->
  numLe Num.zero (JS.Number (Product.stock p)) ->
  numLt (JS.Number (Product.stock p)) (JS.Number (StockOut.quantity record)) ->
  exists p',
    nth_error (products (handleRecordStockOut record clock st)) i = Some p'
    /\ Product.id p' = Product.id p
    /\ Product.stock p' = PNumber Num.zero.
Proof.
  intros Hi Hid H0 Hlt.
  exists (decrement record clock p i). split.
  - now apply recordStockOut_nth.
  - rewrite decrement_match by exact Hid. split; [reflexivity|].
    cbn [Product.stock Product.withStock].
    now rewrite NumFacts.max_zero_sub_lt.
Qed.

Lemma recordStockOut_clamps_witness :
  exists p',
    nth_error (products (handleRecordStockOut Scenario.out12 Scenario.clock
                           Scenario.shop)) 0 = Some p'
    /\ Product.id p' = "p1"
    /\ Product.stock p' = PNumber Num.zero.
Proof.
  apply (@recordStockOut_clamps Scenario.out12 Scenario.clock Scenario.shop
           0 Scenario.widget).
  - reflexivity.
  - reflexivity.
  - apply NumFacts.leb_le. reflexivity.
  - apply NumFacts.ltb_lt. reflexivity.
Defined.

(** C7.  A stock-out whose [productId] matches no product is still appended
    to the stock-outs, and the products are exactly what they were. *)
Theorem recordStockOut_unmatched (record : StockOut.t) (clock : nat -> string)
  (st : State) :
  (forall p, In p (products st) ->
             Product.id p <> StockOut.productId record) ->
  stockOuts (handleRecordStockOut record clock st) = stockOuts st ++ [record]
  /\ products (handleRecordStockOut record clock st) = products st.
Proof.
  intros H. split; [reflexivity|].
  simpl. unfold JS.map. apply mapFrom_fixed.
  intros x j Hx. apply decrement_other. now apply H.
Qed.

Lemma recordStockOut_unmatched_witness :
  stockOuts (handleRecordStockOut Scenario.outGhost Scenario.clock
               Scenario.shop)
  = [Scenario.out1; Scenario.outGhost]
  /\ products (handleRecordStockOut Scenario.outGhost Scenario.clock
                 Scenario.shop)
     = [Scenario.widget].
Proof.
  apply (@recordStockOut_unmatched Scenario.outGhost Scenario.clock
           Scenario.shop).
  intros p [E|[]]. subst p. discriminate.
Defined.

(** C10.  A stock-out changes nothing but the [stock] and [lastUpdated] of
    the products it matches: their other properties, every other product,
    the number and order of products, and the sales, expenses and settings
    are as before. *)
Theorem recordStockOut_frame (record : StockOut.t) (clock : nat -> string)
  (st : State) (i : nat) (p : Product.t) :
  nth_error (products st) i = Some p ->
  sales (handleRecordStockOut record clock st) = sales st
  /\ expenses (handleRecordStockOut record clock st) = expenses st
  /\ shopSettings (handleRecordStockOut record clock st) = shopSettings st
  /\ List.length (products (handleRecordStockOut record clock st))
     = List.length (products st)
  /\ exists p',
       nth_error (products (handleRecordStockOut record clock st)) i
       = Some p'
       /\ Product.id p' = Product.id p
       /\ Product.name p' = Product.name p
       /\ Product.price p' = Product.price p
       /\ Product.cost p' = Product.cost p
       /\ Product.minStock p' = Product.minStock p
       /\ Product.rest p' = Product.rest p
       /\ (Product.id p <> StockOut.productId record -> p' = p).
Proof.
  intros Hi. repeat split.
  - simpl. unfold JS.map. apply mapFrom_length.
  - exists (decrement record clock p i). split.
    + now apply recordStockOut_nth.
    + unfold decrement.
      destruct (String.eqb (Product.id p) (StockOut.productId record)) eqn:E.
      * repeat split. intros Hne. apply String.eqb_neq in Hne. congruence.
      * repeat split.
Qed.

Lemma recordStockOut_frame_witness :
  sales (handleRecordStockOut Scenario.out12 Scenario.clock Scenario.shop)
  = [Scenario.sale1]
  /\ expenses (handleRecordStockOut Scenario.out12 Scenario.clock
                 Scenario.shop) = []
  /\ shopSettings (handleRecordStockOut Scenario.out12 Scenario.clock
                     Scenario.shop) = Scenario.settings
  /\ List.length (products (handleRecordStockOut Scenario.out12
                              Scenario.clock Scenario.shop)) = 1
  /\ exists p',
       nth_error (products (handleRecordStockOut Scenario.out12
                              Scenario.clock Scenario.shop)) 0
       = Some p'
       /\ Product.id p' = "p1"
       /\ Product.name p' = "Widget"
       /\ Product.price p' = Scenario.num 100
       /\ Product.cost p' = Scenario.num 60
       /\ Product.minStock p' = Scenario.num 2
       /\ Product.rest p' = []
       /\ ("p1" <> "p1" -> p' = Scenario.widget).
Proof.
  exact (@recordStockOut_frame Scenario.out12 Scenario.clock Scenario.shop
           0 Scenario.widget eq_refl).
Defined.

(* ================================================================== *)
(** ** The stock floor *)
(* ================================================================== *)

Lemma trace_stockNonNeg (acts : list Action) (st : State) :
  Forall admissible acts -> allStockNonNeg st ->
  Forall allStockNonNeg (trace acts st).
Proof.
  intros Ha. revert st.
  induction Ha as [|a rest Hadm _ IH]; intros st Hst; simpl.
  - constructor.
  - assert (Hnext : allStockNonNeg (step st a))
      by now apply step_stockNonNeg.
    constructor; [exact Hnext | now apply IH].
Qed.

Lemma run_stockNonNeg (acts : list Action) (st : State) :
  Forall admissible acts -> allStockNonNeg st ->
  allStockNonNeg (run acts st).
Proof.
  intros Ha. revert st. unfold run.
  induction Ha as [|a rest Hadm _ IH]; intros st Hst; simpl.
  - exact Hst.
  - apply IH. now apply step_stockNonNeg.
Qed.

(** C1, as stated, fails.  [AddProduct] stores the product it is given: on
    the empty shop a product entered with stock -5 is stored with stock -5.
    And a stock-out whose quantity is [NaN] leaves [Math.max(0, NaN)], which
    is [NaN], as the stock of the widget. *)
Lemma stock_floor_broken :
  (allStockNonNeg Scenario.empty
   /\ ~ allStockNonNeg
         (run [AddProduct Scenario.negative] Scenario.empty))
  /\ (allStockNonNeg Scenario.shop
      /\ ~ allStockNonNeg
            (run [RecordStockOut Scenario.outNaN Scenario.clock]
               Scenario.shop)).
Proof.
  split; split.
  - constructor.
  - intros H. inversion H as [|? ? Hp _]. subst.
    apply NumFacts.leb_le in Hp. discriminate Hp.
  - constructor; [|constructor]. apply NumFacts.leb_le. reflexivity.
  - intros H. inversion H as [|? ? Hp _]. subst.
    apply NumFacts.leb_le in Hp. discriminate Hp.
Qed.

(** C1, amended.  Along every sequence of handler calls in which each
    product given to [AddProduct] or [UpdateProduct] has a non-negative
    stock and each recorded stock-out quantity is a finite number, starting
    from a state whose stocks are all non-negative, the stocks are all
    non-negative after every call. *)
Theorem stock_floor (acts : list Action) (st : State) :
  Forall admissible acts ->
  allStockNonNeg st ->
  Forall allStockNonNeg (trace acts st)
  /\ allStockNonNeg (run acts st).
Proof.
  intros Ha Hst. split.
  - now apply trace_stockNonNeg.
  - now apply run_stockNonNeg.
Qed.

Lemma stock_floor_witness :
  Forall allStockNonNeg
    (trace [AddProduct Scenario.widget;
            RecordStockOut Scenario.out12 Scenario.clock;
            UpdateProduct Scenario.widget;
            DeleteProduct "p1"]
       Scenario.empty)
  /\ allStockNonNeg
       (run [AddProduct Scenario.widget;
             RecordStockOut Scenario.out12 Scenario.clock;
             UpdateProduct Scenario.widget;
             DeleteProduct "p1"]
          Scenario.empty).
Proof.
  apply stock_floor.
  - repeat constructor; apply NumFacts.leb_le; reflexivity.
  - constructor.
Defined.

(* ================================================================== *)
(** ** Metrics *)
(* ================================================================== *)

(** C2.  The engine does not read every numeric property through
    [Number(x) || 0].  A sale without [total] counts 0 towards revenue but
    makes the profit [NaN]; a sale-reason stock-out without [quantity]
    makes both revenue and profit [NaN]. *)
Theorem metrics_not_coerced :
  (DashboardStats.totalRevenue (stats [] [Scenario.saleNoTotal] [] [])
   = Num.zero
   /\ DashboardStats.totalProfit (stats [] [Scenario.saleNoTotal] [] [])
      = Num.NaN)
  /\ (DashboardStats.totalRevenue
        (stats [Scenario.widget] [] [] [Scenario.outNoQuantity])
      = Num.NaN
      /\ DashboardStats.totalProfit
           (stats [Scenario.widget] [] [] [Scenario.outNoQuantity])
         = Num.NaN).
Proof. repeat split; reflexivity. Qed.

(** C3.  For every snapshot, [totalRevenue] is the sum of the totals of the
    sales plus the sum, over the stock-outs whose reason is ['Sale'], of the
    quantity times the price of the matching product, 0 when none matches.
    Each sum adds its terms to 0 one after the other in the order of the
    stored sequence, every addition and product being rounded as binary64
    rounds it.  This holds with each property read as the engine reads it
    at that place
    (a total through [Number(x) || 0], a quantity through [Number(x)], a
    price through [x || 0]), and, whenever totals and prices are numbers,
    with every property read by [Number] alone.  On the shop with one
    product (price 100), one sale of total 100 and one sale-reason stock-out
    of 2, it is 300. *)
Theorem totalRevenue_formula :
  (forall products sales expenses stockOuts,
      DashboardStats.totalRevenue (stats products sales expenses stockOuts)
      = revenueFormula products sales stockOuts)
  /\ (forall products sales expenses stockOuts,
         Forall (fun s => isNumber (Sale.total s)) sales ->
         Forall (fun p => isNumber (Product.price p)) products ->
         DashboardStats.totalRevenue
           (stats products sales expenses stockOuts)
         = plainRevenue products sales stockOuts)
  /\ DashboardStats.totalRevenue (statsOf Scenario.shop) = Num.ofZ 300.
Proof.
  assert (H : forall products sales expenses stockOuts,
             DashboardStats.totalRevenue
               (stats products sales expenses stockOuts)
             = revenueFormula products sales stockOuts).
  { intros products sales expenses stockOuts.
    simpl. unfold totalRevenue, revenueFormula.
    now rewrite baseRevenue_formula, stockOutRevenue_formula. }
  split; [exact H|]. split; [|same_number].
  intros products sales expenses stockOuts Hs Hp.
  rewrite H. now apply revenueFormula_plain.
Qed.

Lemma totalRevenue_formula_witness :
  DashboardStats.totalRevenue (statsOf Scenario.shop)
  = plainRevenue [Scenario.widget] [Scenario.sale1] [Scenario.out1].
Proof.
  apply (proj1 (proj2 totalRevenue_formula)).
  - repeat constructor.
  - repeat constructor.
Defined.

(** C4.  For every snapshot, [totalProfit] is the sum over the sales of the
    total minus the cost of the line items (matching product's cost times
    quantity, cost 0 when none matches), plus the sum over the sale-reason
    stock-outs of (price - cost) times quantity, minus the sum of the
    expenses.  A stock-out without a matching product contributes nothing:
    it is left out of its sum.  Each sum adds its terms to 0 one after the
    other in the order of the stored sequence, every operation being
    rounded as binary64 rounds it.  This holds with each property read as
    the engine reads it at that place (a cost, an item quantity and an
    amount through [Number(x) || 0], the others through [Number(x)]), and,
    whenever costs, item quantities and amounts are numbers, with every
    property read by [Number] alone.  In the scenario of one product (price
    100, cost 60), one sale of total 100 with one item of quantity 1 and
    one sale-reason stock-out of 2, it is 120. *)
Theorem totalProfit_formula :
  (forall products sales expenses stockOuts,
      DashboardStats.totalProfit (stats products sales expenses stockOuts)
      = profitFormula products sales expenses stockOuts)
  /\ (forall products sales expenses stockOuts,
         Forall (fun p => isNumber (Product.cost p)) products ->
         Forall (fun s => Forall (fun it => isNumber (SaleItem.quantity it))
                            (itemsOf s)) sales ->
         Forall (fun e => isNumber (Expense.amount e)) expenses ->
         DashboardStats.totalProfit (stats products sales expenses stockOuts)
         = plainProfit products sales expenses stockOuts)
  /\ DashboardStats.totalProfit (statsOf Scenario.shop) = Num.ofZ 120.
Proof.
  assert (H : forall products sales expenses stockOuts,
             DashboardStats.totalProfit
               (stats products sales expenses stockOuts)
             = profitFormula products sales expenses stockOuts).
  { intros products sales expenses stockOuts.
    simpl. unfold totalProfit, profitFormula.
    now rewrite salesProfit_formula, stockOutProfit_formula,
      totalExpenses_formula. }
  split; [exact H|]. split; [|same_number].
  intros products sales expenses stockOuts Hp Hs He.
  rewrite H. now apply profitFormula_plain.
Qed.

Lemma totalProfit_formula_witness :
  DashboardStats.totalProfit (statsOf Scenario.shop)
  = plainProfit [Scenario.widget] [Scenario.sale1] [] [Scenario.out1].
Proof.
  apply (proj1 (proj2 totalProfit_formula)).
  - repeat constructor.
  - repeat constructor.
  - constructor.
Defined.

Lemma isLowStock_le (p : Product.t) :
  isLowStock p = true
  <-> numLe (Num.orZero (JS.Number (Product.stock p)))
            (Num.orZero (JS.Number (Product.minStock p))).
Proof. unfold isLowStock. apply NumFacts.leb_le. Qed.

(** C9.  [lowStockCount] is the number of products whose stock, read as 0
    when it is not a number, is less than or equal to its [minStock], read
    the same way.  Stock 5 against a threshold of 5 counts, stock 6 against
    5 does not, and a product with neither property counts. *)
Theorem lowStockCount_inclusive :
  (forall products sales expenses stockOuts,
      DashboardStats.lowStockCount (stats products sales expenses stockOuts)
      = countOf isLowStock products)
  /\ (forall p,
         isLowStock p = true
         <-> numLe (Num.orZero (JS.Number (Product.stock p)))
                   (Num.orZero (JS.Number (Product.minStock p))))
  /\ DashboardStats.lowStockCount
       (stats [Scenario.stocked (Scenario.num 5) (Scenario.num 5)] [] [] [])
     = 1
  /\ DashboardStats.lowStockCount
       (stats [Scenario.stocked (Scenario.num 6) (Scenario.num 5)] [] [] [])
     = 0
  /\ DashboardStats.lowStockCount
       (stats [Scenario.stocked PUndefined PUndefined] [] [] [])
     = 1.
Proof.
  split; [|split; [exact isLowStock_le | repeat split]].
  intros products sales expenses stockOuts. simpl.
  apply length_filter_count.
Qed.

(* ================================================================== *)
(** ** Deleting a product *)
(* ================================================================== *)

Lemma findProduct_deleted (ps : list Product.t) (pid : string) :
  findProduct
    (filter (fun p => negb (String.eqb (Product.id p) pid)) ps) pid
  = None.
Proof.
  unfold findProduct. induction ps as [|p r IH]; simpl; [reflexivity|].
  destruct (String.eqb (Product.id p) pid) eqn:E; simpl; [exact IH|].
  now rewrite E.
Qed.

Lemma findProduct_kept (ps : list Product.t) (pid other : string) :
  other <> pid ->
  findProduct
    (filter (fun p => negb (String.eqb (Product.id p) pid)) ps) other
  = findProduct ps other.
Proof.
  intros Hne. unfold findProduct.
  induction ps as [|p r IH]; simpl; [reflexivity|].
  destruct (String.eqb (Product.id p) pid) eqn:E; simpl.
  - apply String.eqb_eq in E.
    assert (Ho : String.eqb (Product.id p) other = false)
      by (apply String.eqb_neq; congruence).
    now rewrite Ho.
  - destruct (String.eqb (Product.id p) other); [reflexivity|exact IH].
Qed.

(** C8.  [DeleteProduct(id)] removes exactly the products with that id and
    leaves the sales, expenses, stock-outs and settings as they were.  The
    metrics of the resulting snapshot are computed by the same total
    function, in which the lookup of [id] now finds nothing: a line item
    that refers to it is costed at 0, a stock-out that refers to it is
    priced at 0 in the revenue and skipped in the profit; every other id
    resolves to the product it resolved to before. *)
Theorem deleteProduct_dangling (pid : string) (st : State) :
  products (handleDeleteProduct pid st)
  = filter (fun p => negb (String.eqb (Product.id p) pid)) (products st)
  /\ (forall p, In p (products (handleDeleteProduct pid st))
                <-> In p (products st) /\ Product.id p <> pid)
  /\ sales (handleDeleteProduct pid st) = sales st
  /\ expenses (handleDeleteProduct pid st) = expenses st
  /\ stockOuts (handleDeleteProduct pid st) = stockOuts st
  /\ shopSettings (handleDeleteProduct pid st) = shopSettings st
  /\ statsOf (handleDeleteProduct pid st)
     = stats (products (handleDeleteProduct pid st)) (sales st)
         (expenses st) (stockOuts st)
  /\ findProduct (products (handleDeleteProduct pid st)) pid = None
  /\ (forall item,
         SaleItem.productId item = pid ->
         itemCost (products (handleDeleteProduct pid st)) item = Num.zero)
  /\ (forall so,
         StockOut.productId so = pid ->
         unitPrice (products (handleDeleteProduct pid st)) so = Num.zero
         /\ forall acc,
              profitStep (products (handleDeleteProduct pid st)) acc so
              = acc)
  /\ (forall other,
         other <> pid ->
         findProduct (products (handleDeleteProduct pid st)) other
         = findProduct (products st) other).
Proof.
  repeat match goal with |- _ /\ _ => split end; try reflexivity;
    try (intros other Hne; now apply findProduct_kept).
  - intros p. simpl. rewrite filter_In.
    split; intros [Hin Hid]; split; try exact Hin.
    + intros E. apply String.eqb_eq in E. now rewrite E in Hid.
    + apply String.eqb_neq in Hid. now rewrite Hid.
  - apply findProduct_deleted.
  - intros item E. unfold itemCost. simpl. rewrite E.
    now rewrite findProduct_deleted.
  - intros so E. unfold unitPrice, profitStep. simpl. rewrite E.
    rewrite findProduct_deleted. split; [reflexivity|]. intros acc.
    reflexivity.
Qed.

Lemma deleteProduct_dangling_witness :
  itemCost (products (handleDeleteProduct "p1" Scenario.shop))
    (SaleItem.mk "p1" (Scenario.num 1) (Scenario.num 100))
  = Num.zero
  /\ unitPrice (products (handleDeleteProduct "p1" Scenario.shop))
       Scenario.out1
     = Num.zero.
Proof.
  pose proof (@deleteProduct_dangling "p1" Scenario.shop) as H.
  destruct H as (_ & _ & _ & _ & _ & _ & _ & _ & Hitem & Hso & _).
  split.
  - apply Hitem. reflexivity.
  - apply Hso. reflexivity.
Defined.

Example metrics_after_delete :
  statsOf (handleDeleteProduct "p1" Scenario.shop)
  = DashboardStats.mk (Num.ofZ 100) (Num.ofZ 100) 2 Num.zero 0.
Proof.
  vm_compute. f_equal; apply f_equal, Qc_is_canon; reflexivity.
Qed.

(* ================================================================== *)
(** ** Loading *)
(* ================================================================== *)

Section LoadFacts.

Variable getItem : string -> Outcome (option string).
Variable JSON_parse : string -> Outcome Value.

Lemma tryThenReturn_returns (block : Outcome (option Value))
  (fallback : Value) :
  exists v, tryThenReturn block fallback = Returns v.
Proof. destruct block as [[v|]|]; simpl; eauto. Qed.

(** What a collection initialiser returns: the parsed value when the key
    holds a non-empty text that parses to an array, its default otherwise. *)
Lemma readArray_cases (key : string) (dflt : Value) :
  (exists text elems,
      getItem key = Returns (Some text) /\ text <> ""
      /\ JSON_parse text = Returns (VArray elems)
      /\ tryThenReturn (readArray getItem JSON_parse key dflt) dflt
         = Returns (VArray elems))
  \/ tryThenReturn (readArray getItem JSON_parse key dflt) dflt
     = Returns dflt.
Proof.
  unfold readArray, bind, present.
  destruct (getItem key) as [[text|]|] eqn:Eg; simpl; auto.
  destruct (String.eqb text "") eqn:Et; simpl; auto.
  destruct (JSON_parse text) as [parsed|] eqn:Ep; simpl; auto.
  destruct parsed; simpl; auto.
  left. exists text, elems. repeat split; auto.
  now apply String.eqb_neq.
Qed.

(** A missing key, an unparsable text or a parsed value that is not an
    array all make a collection initialiser return its default. *)
Lemma readArray_default (key : string) (dflt : Value) :
  getItem key = Throws
  \/ getItem key = Returns None
  \/ getItem key = Returns (Some "")
  \/ (exists text, getItem key = Returns (Some text)
                   /\ (JSON_parse text = Throws
                       \/ exists v, JSON_parse text = Returns v
                                    /\ JS.isArray v = false)) ->
  tryThenReturn (readArray getItem JSON_parse key dflt) dflt = Returns dflt.
Proof.
  unfold readArray, bind, present.
  intros [E|[E|[E|[text [E H]]]]]; rewrite E; simpl; try reflexivity.
  destruct (String.eqb text ""); simpl; [reflexivity|].
  destruct H as [Ep|[v [Ep Hv]]]; rewrite Ep; simpl; [reflexivity|].
  now rewrite Hv.
Qed.

(** The settings initialiser returns whatever the stored text parses to. *)
Lemma initShopSettings_parsed (loadedAt text : string) (v : Value) :
  getItem "sm_settings_v2" = Returns (Some text) ->
  text <> "" ->
  JSON_parse text = Returns v ->
  initShopSettings getItem JSON_parse loadedAt = Returns v.
Proof.
  intros Eg Et Ep. unfold initShopSettings, bind, present.
  rewrite Eg. apply String.eqb_neq in Et. rewrite Et, Ep. reflexivity.
Qed.

(** No initialiser lets an exception escape. *)
Lemma initialisers_return (seedList : list Product.t) (loadedAt : string) :
  (exists v, initProducts getItem JSON_parse seedList = Returns v)
  /\ (exists v, initSales getItem JSON_parse = Returns v)
  /\ (exists v, initExpenses getItem JSON_parse = Returns v)
  /\ (exists v, initStockOuts getItem JSON_parse = Returns v)
  /\ (exists v, initShopSettings getItem JSON_parse loadedAt = Returns v).
Proof. repeat split; apply tryThenReturn_returns. Qed.

End LoadFacts.

(** C5.  With the JSON text [null] under every key, the products
    initialiser returns the seed list and the other three collections the
    empty array, but the settings initialiser returns [null]: it does not
    check the shape of what it parsed, and the default record is not used. *)
Theorem initShopSettings_unchecked :
  (forall seedList,
      initProducts Scenario.getItemNull Scenario.parseNull seedList
      = Returns (seed seedList))
  /\ initSales Scenario.getItemNull Scenario.parseNull
     = Returns (VArray [])
  /\ initExpenses Scenario.getItemNull Scenario.parseNull
     = Returns (VArray [])
  /\ initStockOuts Scenario.getItemNull Scenario.parseNull
     = Returns (VArray [])
  /\ initShopSettings Scenario.getItemNull Scenario.parseNull Scenario.day
     = Returns (VPrimitive PNull)
  /\ hasSettingsShape (VPrimitive PNull) = false
  /\ hasSettingsShape (ShopSettings.toValue (DEFAULT_SETTINGS Scenario.day))
     = true.
Proof. repeat split. Qed.

(* ================================================================== *)
(** ** What sequences of calls do to the stores *)
(* ================================================================== *)

Lemma step_sales (a : Action) (st : State) : sales (step st a) = sales st.
Proof. destruct a; reflexivity. Qed.

Lemma run_sales (acts : list Action) (st : State) :
  sales (run acts st) = sales st.
Proof.
  unfold run. revert st.
  induction acts as [|a rest IH]; intros st; simpl; [reflexivity|].
  now rewrite IH, step_sales.
Qed.

(** X1.  No handler writes the sales: after any sequence of calls the
    sales are what they were. *)
Theorem sales_never_change (acts : list Action) (st : State) :
  sales (run acts st) = sales st.
Proof. apply run_sales. Qed.

Lemma run_logs (acts : list Action) (st : State) :
  expenses (run acts st) = expenses st ++ addedExpenses acts
  /\ stockOuts (run acts st) = stockOuts st ++ recordedStockOuts acts.
Proof.
  unfold run. revert st.
  induction acts as [|a rest IH]; intros st; simpl.
  - now rewrite !app_nil_r.
  - destruct (IH (step st a)) as [He Hs]. rewrite He, Hs.
    destruct a; simpl; rewrite <- ?app_assoc; split; reflexivity.
Qed.

(** X2.  Expenses and stock-outs are append-only logs: after any sequence
    of calls each is what it was, followed by what [AddExpense], respectively
    [RecordStockOut], was given, in call order. *)
Theorem logs_append_only (acts : list Action) (st : State) :
  expenses (run acts st) = expenses st ++ addedExpenses acts
  /\ stockOuts (run acts st) = stockOuts st ++ recordedStockOuts acts.
Proof. apply run_logs. Qed.

Lemma run_app (acts acts' : list Action) (st : State) :
  run (acts ++ acts') st = run acts' (run acts st).
Proof. unfold run. apply fold_left_app. Qed.

Lemma settings_kept (acts : list Action) (st : State) :
  forallb (fun a => negb (isUpdateSettings a)) acts = true ->
  shopSettings (run acts st) = shopSettings st.
Proof.
  unfold run. revert st.
  induction acts as [|a rest IH]; intros st H; simpl in *; [reflexivity|].
  apply andb_true_iff in H. destruct H as [Ha Hrest].
  rewrite IH by exact Hrest. destruct a; try reflexivity. discriminate Ha.
Qed.

(** X3.  The settings are those of the last [UpdateSettings] call: calls of
    the other handlers after it leave them alone, whatever came before. *)
Theorem settings_last_write_wins (before after : list Action)
  (newSettings : ShopSettings.t) (st : State) :
  forallb (fun a => negb (isUpdateSettings a)) after = true ->
  shopSettings (run (before ++ UpdateSettings newSettings :: after) st)
  = newSettings.
Proof.
  intros H. rewrite run_app.
  change (run (UpdateSettings newSettings :: after) (run before st))
    with (run after (handleUpdateSettings newSettings (run before st))).
  now rewrite settings_kept.
Qed.

Lemma settings_last_write_wins_witness :
  shopSettings
    (run ([UpdateSettings Scenario.settings; AddProduct Sample.gadget]
          ++ UpdateSettings Sample.newPolicy
             :: [RecordStockOut Sample.out3 Scenario.clock;
                 DeleteProduct "p1"])
       Scenario.shop)
  = Sample.newPolicy.
Proof.
  apply settings_last_write_wins. reflexivity.
Defined.

Lemma filter_idem {A : Type} (f : A -> bool) (l : list A) :
  filter f (filter f l) = filter f l.
Proof.
  induction l as [|x r IH]; simpl; [reflexivity|].
  destruct (f x) eqn:E; simpl; [now rewrite E, IH | exact IH].
Qed.

(** X4.  The transaction counter after any sequence of calls is the
    counter before plus the number of recorded stock-outs whose reason is
    ['Sale']; no other call moves it. *)
Theorem totalSales_counts_recorded_sales (acts : list Action) (st : State) :
  DashboardStats.totalSales (statsOf (run acts st))
  = DashboardStats.totalSales (statsOf st)
    + countOf isSale (recordedStockOuts acts).
Proof.
  unfold statsOf. simpl. unfold totalSalesCount.
  rewrite run_sales.
  destruct (run_logs acts st) as [_ Hs]. rewrite Hs.
  rewrite filter_app, length_app.
  rewrite (length_filter_count isSale (recordedStockOuts acts)).
  apply Nat.add_assoc.
Qed.

(* ================================================================== *)
(** ** Adding, updating and deleting products *)
(* ================================================================== *)

Lemma state_eq (st : State) (ps : list Product.t) :
  ps = products st -> withProducts st ps = st.
Proof. intros ->. now destruct st. Qed.

(** X5.  [UpdateProduct] keeps the ids of the products, position by
    position, and so their number: it can replace a product only by one
    with the same id. *)
Theorem updateProduct_keeps_ids (updatedProduct : Product.t) (st : State) :
  map Product.id (products (handleUpdateProduct updatedProduct st))
  = map Product.id (products st).
Proof.
  simpl. rewrite map_map. apply map_ext. intros p.
  destruct (String.eqb (Product.id p) (Product.id updatedProduct)) eqn:E;
    [|reflexivity].
  symmetry. now apply String.eqb_eq.
Qed.

(** X6.  [UpdateProduct] with an id that no product has changes nothing. *)
Theorem updateProduct_absent (updatedProduct : Product.t) (st : State) :
  (forall p, In p (products st) ->
             Product.id p <> Product.id updatedProduct) ->
  handleUpdateProduct updatedProduct st = st.
Proof.
  intros H. unfold handleUpdateProduct. apply state_eq.
  rewrite <- (map_id (products st)) at 2. apply map_ext_in.
  intros p Hp. apply H, String.eqb_neq in Hp. now rewrite Hp.
Qed.

Lemma updateProduct_absent_witness :
  handleUpdateProduct Sample.gadget Scenario.shop = Scenario.shop.
Proof.
  apply updateProduct_absent.
  intros p [E|[]]. subst p. discriminate.
Defined.

(** X7.  After [AddProduct] the id of the new product resolves to it, also
    when a product with that id was already there, and every other id
    resolves as before. *)
Theorem addProduct_lookup (newProduct : Product.t) (st : State) :
  findProduct (products (handleAddProduct newProduct st))
    (Product.id newProduct)
  = Some newProduct
  /\ forall pid,
       pid <> Product.id newProduct ->
       findProduct (products (handleAddProduct newProduct st)) pid
       = findProduct (products st) pid.
Proof.
  unfold findProduct. simpl. split.
  - now rewrite String.eqb_refl.
  - intros pid Hne.
    assert (E : String.eqb (Product.id newProduct) pid = false)
      by (apply String.eqb_neq; congruence).
    now rewrite E.
Qed.

Lemma addProduct_lookup_witness :
  findProduct (products (handleAddProduct Sample.widget120 Scenario.shop))
    "p1"
  = Some Sample.widget120
  /\ findProduct (products (handleAddProduct Sample.widget120 Scenario.shop))
       "p2"
     = findProduct (products Scenario.shop) "p2".
Proof.
  destruct (addProduct_lookup Sample.widget120 Scenario.shop) as [H1 H2].
  split; [exact H1 | apply H2; discriminate].
Defined.

Lemma find_update (u : Product.t) (ps : list Product.t) (pid : string) :
  findProduct
    (map (fun p => if String.eqb (Product.id p) (Product.id u) then u else p)
       ps) pid
  = if String.eqb pid (Product.id u)
    then match findProduct ps pid with Some _ => Some u | None => None end
    else findProduct ps pid.
Proof.
  unfold findProduct. induction ps as [|p r IH]; simpl.
  - now destruct (String.eqb pid (Product.id u)).
  - destruct (String.eqb (Product.id p) (Product.id u)) eqn:Epu.
    + apply String.eqb_eq in Epu. rewrite Epu.
      rewrite (String.eqb_sym (Product.id u) pid).
      destruct (String.eqb pid (Product.id u)) eqn:E; [reflexivity|].
      rewrite IH. reflexivity.
    + destruct (String.eqb (Product.id p) pid) eqn:Epp.
      * apply String.eqb_eq in Epp. subst pid. now rewrite Epu.
      * exact IH.
Qed.

(** X8.  After [UpdateProduct] an id that resolved to some product and is
    the id of the update resolves to the update; every other id resolves
    as before. *)
Theorem updateProduct_lookup (updatedProduct : Product.t) (st : State) :
  (findProduct (products st) (Product.id updatedProduct) <> None ->
   findProduct (products (handleUpdateProduct updatedProduct st))
     (Product.id updatedProduct)
   = Some updatedProduct)
  /\ forall pid,
       pid <> Product.id updatedProduct ->
       findProduct (products (handleUpdateProduct updatedProduct st)) pid
       = findProduct (products st) pid.
Proof.
  simpl. split.
  - intros H. rewrite find_update, String.eqb_refl.
    destruct (findProduct (products st) (Product.id updatedProduct));
      [reflexivity | contradiction].
  - intros pid Hne. rewrite find_update.
    apply String.eqb_neq in Hne. now rewrite Hne.
Qed.

Lemma updateProduct_lookup_witness :
  findProduct (products (handleUpdateProduct Sample.widget120 Scenario.shop))
    "p1"
  = Some Sample.widget120.
Proof.
  apply (proj1 (updateProduct_lookup Sample.widget120 Scenario.shop)).
  discriminate.
Defined.

Lemma filter_all {A : Type} (f : A -> bool) (l : list A) :
  (forall x, In x l -> f x = true) -> filter f l = l.
Proof.
  induction l as [|x r IH]; intros H; simpl; [reflexivity|].
  rewrite H by now left.
  rewrite IH; [reflexivity|]. intros y Hy. apply H. now right.
Qed.

(** X9.  Adding a product whose id is new and then deleting that id gives
    back the state before the two calls. *)
Theorem add_then_delete (newProduct : Product.t) (st : State) :
  (forall p, In p (products st) -> Product.id p <> Product.id newProduct) ->
  handleDeleteProduct (Product.id newProduct)
    (handleAddProduct newProduct st)
  = st.
Proof.
  intros H. unfold handleDeleteProduct, handleAddProduct. simpl.
  rewrite String.eqb_refl. simpl.
  rewrite filter_all.
  - now destruct st.
  - intros p Hp. apply H, String.eqb_neq in Hp. now rewrite Hp.
Qed.

Lemma add_then_delete_witness :
  handleDeleteProduct "p2" (handleAddProduct Sample.gadget Scenario.shop)
  = Scenario.shop.
Proof.
  apply (add_then_delete Sample.gadget Scenario.shop).
  intros p [E|[]]. subst p. discriminate.
Defined.

Lemma filter_comm {A : Type} (f g : A -> bool) (l : list A) :
  filter f (filter g l) = filter g (filter f l).
Proof.
  induction l as [|x r IH]; simpl; [reflexivity|].
  destruct (f x) eqn:Ef, (g x) eqn:Eg; simpl;
    rewrite ?Ef, ?Eg, IH; reflexivity.
Qed.

(** X10.  Deletions can be repeated and reordered: deleting an id twice is
    deleting it once, and two deletions give the same state in either
    order. *)
Theorem delete_idempotent_commutes (a b : string) (st : State) :
  handleDeleteProduct a (handleDeleteProduct a st)
  = handleDeleteProduct a st
  /\ handleDeleteProduct a (handleDeleteProduct b st)
     = handleDeleteProduct b (handleDeleteProduct a st).
Proof.
  unfold handleDeleteProduct, withProducts. simpl. split.
  - now rewrite filter_idem.
  - now rewrite filter_comm.
Qed.

(* ================================================================== *)
(** ** How the handlers move the metrics *)
(* ================================================================== *)

Section MoneyFacts.

Local Open Scope num_scope.

Lemma fold_left_ext_in {A B : Type} (f g : B -> A -> B) (l : list A)
  (b : B) :
  (forall acc x, In x l -> f acc x = g acc x) ->
  fold_left f l b = fold_left g l b.
Proof.
  revert b. induction l as [|x r IH]; intros b E; simpl; [reflexivity|].
  rewrite E by now left.
  apply IH. intros acc y Hy. apply E. now right.
Qed.

(** What the engine reads of a looked-up product is its price and cost. *)
Lemma lookups_agree (ps ps' : list Product.t) (pid : string) :
  option_map priceCost (findProduct ps pid)
  = option_map priceCost (findProduct ps' pid) ->
  match findProduct ps pid, findProduct ps' pid with
  | Some p, Some p' =>
      Product.price p = Product.price p' /\ Product.cost p = Product.cost p'
  | None, None => True
  | _, _ => False
  end.
Proof.
  destruct (findProduct ps pid), (findProduct ps' pid); simpl; intros H;
    try discriminate; [|exact I].
  unfold priceCost in H. now inversion H.
Qed.

Lemma unitPrice_same (ps ps' : list Product.t) (so : StockOut.t) :
  option_map priceCost (findProduct ps (StockOut.productId so))
  = option_map priceCost (findProduct ps' (StockOut.productId so)) ->
  unitPrice ps so = unitPrice ps' so.
Proof.
  intros H. apply lookups_agree in H. unfold unitPrice.
  destruct (findProduct ps _), (findProduct ps' _); try contradiction;
    simpl; [|reflexivity].
  destruct H as [Hp _]. now rewrite Hp.
Qed.

Lemma itemCost_same (ps ps' : list Product.t) (item : SaleItem.t) :
  option_map priceCost (findProduct ps (SaleItem.productId item))
  = option_map priceCost (findProduct ps' (SaleItem.productId item)) ->
  itemCost ps item = itemCost ps' item.
Proof.
  intros H. apply lookups_agree in H. unfold itemCost.
  destruct (findProduct ps _), (findProduct ps' _); try contradiction;
    [|reflexivity].
  destruct H as [_ Hc]. now rewrite Hc.
Qed.

Lemma profitStep_same (ps ps' : list Product.t) (acc : Num.t)
  (so : StockOut.t) :
  option_map priceCost (findProduct ps (StockOut.productId so))
  = option_map priceCost (findProduct ps' (StockOut.productId so)) ->
  profitStep ps acc so = profitStep ps' acc so.
Proof.
  intros H. apply lookups_agree in H. unfold profitStep.
  destruct (findProduct ps _), (findProduct ps' _); try contradiction;
    [|reflexivity].
  destruct H as [Hp Hc]. now rewrite Hp, Hc.
Qed.

(** Revenue and profit agree on two product lists as soon as the ids that
    the sales and the sale-reason stock-outs refer to resolve alike. *)
Lemma money_same (ps ps' : list Product.t) (ss : list Sale.t)
  (es : list Expense.t) (sos : list StockOut.t) :
  (forall s item, In s ss -> In item (itemsOf s) ->
      option_map priceCost (findProduct ps (SaleItem.productId item))
      = option_map priceCost (findProduct ps' (SaleItem.productId item))) ->
  (forall so, In so sos -> isSale so = true ->
      option_map priceCost (findProduct ps (StockOut.productId so))
      = option_map priceCost (findProduct ps' (StockOut.productId so))) ->
  totalRevenue ps ss sos = totalRevenue ps' ss sos
  /\ totalProfit ps ss es sos = totalProfit ps' ss es sos.
Proof.
  intros Hitems Hsos.
  assert (Hrev : stockOutRevenue ps sos = stockOutRevenue ps' sos).
  { unfold stockOutRevenue. apply fold_left_ext_in.
    intros acc so Hin. apply filter_In in Hin. destruct Hin as [Hin Hs].
    now rewrite (unitPrice_same ps ps' so (Hsos so Hin Hs)). }
  assert (Hsp : salesProfit ps ss = salesProfit ps' ss).
  { unfold salesProfit. apply fold_left_ext_in.
    intros acc s Hin. do 2 f_equal. unfold saleCogs.
    apply fold_left_ext_in. intros a item Hitem.
    now rewrite (itemCost_same ps ps' item (Hitems s item Hin Hitem)). }
  assert (Hop : stockOutProfit ps sos = stockOutProfit ps' sos).
  { unfold stockOutProfit. apply fold_left_ext_in.
    intros acc so Hin. apply filter_In in Hin. destruct Hin as [Hin Hs].
    now apply profitStep_same, Hsos. }
  unfold totalRevenue, totalProfit. now rewrite Hrev, Hsp, Hop.
Qed.

End MoneyFacts.

(** X11.  Revenue and profit read the products only through the price and
    cost that each id resolves to: two product lists that resolve every id
    to the same price and cost give the same revenue and profit, whatever
    their stocks, names and order. *)
Theorem money_reads_price_and_cost (ps ps' : list Product.t)
  (ss : list Sale.t) (es : list Expense.t) (sos : list StockOut.t) :
  sameLookups ps ps' ->
  DashboardStats.totalRevenue (stats ps ss es sos)
  = DashboardStats.totalRevenue (stats ps' ss es sos)
  /\ DashboardStats.totalProfit (stats ps ss es sos)
     = DashboardStats.totalProfit (stats ps' ss es sos).
Proof.
  intros H. simpl. apply money_same; intros; apply H.
Qed.

Lemma decrement_sameLookups (record : StockOut.t) (clock : nat -> string)
  (ps : list Product.t) :
  sameLookups ps (JS.map (decrement record clock) ps).
Proof.
  intros pid. unfold JS.map, findProduct. generalize 0 as k.
  induction ps as [|p r IH]; intros k; simpl; [reflexivity|].
  assert (Hid : Product.id (decrement record clock p k) = Product.id p)
    by (unfold decrement; now destruct (String.eqb _ _)).
  rewrite Hid. destruct (String.eqb (Product.id p) pid); [|apply IH].
  simpl. unfold decrement. now destruct (String.eqb _ _).
Qed.

Lemma money_reads_price_and_cost_witness :
  DashboardStats.totalRevenue
    (stats [Scenario.widget] [Scenario.sale1] [] [Scenario.out1])
  = DashboardStats.totalRevenue
      (stats (JS.map (decrement Scenario.out12 Scenario.clock)
                [Scenario.widget])
         [Scenario.sale1] [] [Scenario.out1])
  /\ DashboardStats.totalProfit
       (stats [Scenario.widget] [Scenario.sale1] [] [Scenario.out1])
     = DashboardStats.totalProfit
         (stats (JS.map (decrement Scenario.out12 Scenario.clock)
                   [Scenario.widget])
            [Scenario.sale1] [] [Scenario.out1]).
Proof.
  apply money_reads_price_and_cost.
  apply decrement_sameLookups.
Defined.

Section HandlerMetrics.

Local Open Scope num_scope.

Lemma stockOutRevenue_snoc (ps : list Product.t) (sos : list StockOut.t)
  (r : StockOut.t) :
  stockOutRevenue ps (sos ++ [r])
  = if isSale r
    then stockOutRevenue ps sos
         + JS.Number (StockOut.quantity r) * unitPrice ps r
    else stockOutRevenue ps sos.
Proof.
  unfold stockOutRevenue. rewrite filter_app, fold_left_app. simpl.
  destruct (isSale r); reflexivity.
Qed.

Lemma stockOutProfit_snoc (ps : list Product.t) (sos : list StockOut.t)
  (r : StockOut.t) :
  stockOutProfit ps (sos ++ [r])
  = if isSale r
    then profitStep ps (stockOutProfit ps sos) r
    else stockOutProfit ps sos.
Proof.
  unfold stockOutProfit. rewrite filter_app, fold_left_app. simpl.
  destruct (isSale r); reflexivity.
Qed.

Lemma recordStockOut_money (record : StockOut.t) (clock : nat -> string)
  (st : State) :
  DashboardStats.totalRevenue (statsOf (handleRecordStockOut record clock st))
  = totalRevenue (products st) (sales st) (stockOuts st ++ [record])
  /\ DashboardStats.totalProfit
       (statsOf (handleRecordStockOut record clock st))
     = totalProfit (products st) (sales st) (expenses st)
         (stockOuts st ++ [record]).
Proof.
  unfold statsOf. simpl.
  pose proof (decrement_sameLookups record clock (products st)) as Hsame.
  destruct (money_same (products st)
              (JS.map (decrement record clock) (products st))
              (sales st) (expenses st) (stockOuts st ++ [record]))
    as [Hr Hp]; try (intros; apply Hsame).
  now rewrite Hr, Hp.
Qed.

End HandlerMetrics.

(** X12.  A stock-out whose reason is not ['Sale'] changes no revenue,
    profit, expense total or transaction count: only stocks, and so the
    low-stock count, can move. *)
Theorem recordStockOut_other_reason (record : StockOut.t)
  (clock : nat -> string) (st : State) :
  isSale record = false ->
  DashboardStats.totalRevenue (statsOf (handleRecordStockOut record clock st))
  = DashboardStats.totalRevenue (statsOf st)
  /\ DashboardStats.totalProfit
       (statsOf (handleRecordStockOut record clock st))
     = DashboardStats.totalProfit (statsOf st)
  /\ DashboardStats.totalExpenses
       (statsOf (handleRecordStockOut record clock st))
     = DashboardStats.totalExpenses (statsOf st)
  /\ DashboardStats.totalSales
       (statsOf (handleRecordStockOut record clock st))
     = DashboardStats.totalSales (statsOf st).
Proof.
  intros Hr.
  destruct (recordStockOut_money record clock st) as [Hrev Hprof].
  rewrite Hrev, Hprof. unfold statsOf. simpl.
  unfold totalRevenue, totalProfit, totalSalesCount.
  rewrite stockOutRevenue_snoc, stockOutProfit_snoc, filter_app. simpl.
  rewrite Hr, app_nil_r. repeat split.
Qed.

Lemma recordStockOut_other_reason_witness :
  DashboardStats.totalRevenue
    (statsOf (handleRecordStockOut Sample.out3 Scenario.clock Scenario.shop))
  = DashboardStats.totalRevenue (statsOf Scenario.shop)
  /\ DashboardStats.totalProfit
       (statsOf (handleRecordStockOut Sample.out3 Scenario.clock
                   Scenario.shop))
     = DashboardStats.totalProfit (statsOf Scenario.shop)
  /\ DashboardStats.totalExpenses
       (statsOf (handleRecordStockOut Sample.out3 Scenario.clock
                   Scenario.shop))
     = DashboardStats.totalExpenses (statsOf Scenario.shop)
  /\ DashboardStats.totalSales
       (statsOf (handleRecordStockOut Sample.out3 Scenario.clock
                   Scenario.shop))
     = DashboardStats.totalSales (statsOf Scenario.shop).
Proof.
  apply recordStockOut_other_reason. reflexivity.
Defined.

(** X13.  A stock-out whose reason is ['Sale'] adds one transaction and
    extends the two stock-out sums by its own term, computed last: the
    revenue is the direct sales revenue plus (the stock-out revenue so far
    plus its quantity times the current price of its product, 0 when there
    is none); the profit is (the sales profit plus the stock-out profit so
    far extended by (price - cost) times its quantity, or left as it is
    when there is no product) minus the expenses. *)
Theorem recordStockOut_sale (record : StockOut.t) (clock : nat -> string)
  (st : State) :
  isSale record = true ->
  DashboardStats.totalRevenue (statsOf (handleRecordStockOut record clock st))
  = (baseRevenue (sales st)
     + (stockOutRevenue (products st) (stockOuts st)
        + JS.Number (StockOut.quantity record)
          * unitPrice (products st) record))%num
  /\ DashboardStats.totalProfit
       (statsOf (handleRecordStockOut record clock st))
     = ((salesProfit (products st) (sales st)
         + profitStep (products st)
             (stockOutProfit (products st) (stockOuts st)) record)
        - totalExpenses (expenses st))%num
  /\ DashboardStats.totalExpenses
       (statsOf (handleRecordStockOut record clock st))
     = DashboardStats.totalExpenses (statsOf st)
  /\ DashboardStats.totalSales
       (statsOf (handleRecordStockOut record clock st))
     = S (DashboardStats.totalSales (statsOf st)).
Proof.
  intros Hr.
  destruct (recordStockOut_money record clock st) as [Hrev Hprof].
  rewrite Hrev, Hprof. unfold statsOf. simpl.
  unfold totalRevenue, totalProfit, totalSalesCount.
  rewrite stockOutRevenue_snoc, stockOutProfit_snoc, filter_app. simpl.
  rewrite Hr, length_app. simpl. repeat split.
  now rewrite Nat.add_assoc, Nat.add_1_r.
Qed.

Lemma recordStockOut_sale_witness :
  DashboardStats.totalRevenue
    (statsOf (handleRecordStockOut Scenario.outGhost Scenario.clock
                Scenario.shop))
  = (baseRevenue (sales Scenario.shop)
     + (stockOutRevenue (products Scenario.shop) (stockOuts Scenario.shop)
        + JS.Number (StockOut.quantity Scenario.outGhost)
          * unitPrice (products Scenario.shop) Scenario.outGhost))%num
  /\ DashboardStats.totalProfit
       (statsOf (handleRecordStockOut Scenario.outGhost Scenario.clock
                   Scenario.shop))
     = ((salesProfit (products Scenario.shop) (sales Scenario.shop)
         + profitStep (products Scenario.shop)
             (stockOutProfit (products Scenario.shop)
                (stockOuts Scenario.shop)) Scenario.outGhost)
        - totalExpenses (expenses Scenario.shop))%num
  /\ DashboardStats.totalExpenses
       (statsOf (handleRecordStockOut Scenario.outGhost Scenario.clock
                   Scenario.shop))
     = DashboardStats.totalExpenses (statsOf Scenario.shop)
  /\ DashboardStats.totalSales
       (statsOf (handleRecordStockOut Scenario.outGhost Scenario.clock
                   Scenario.shop))
     = S (DashboardStats.totalSales (statsOf Scenario.shop)).
Proof.
  apply recordStockOut_sale. reflexivity.
Defined.

(** X14.  [AddExpense] adds the amount, read as 0 when it is not a number,
    to the expense total, as the last term of its sum; the profit is the
    sales profit plus the stock-out profit, both as before, minus the new
    expense total; revenue, transaction count and low-stock count are as
    they were. *)
Theorem addExpense_metrics (newExpense : Expense.t) (st : State) :
  DashboardStats.totalExpenses (statsOf (handleAddExpense newExpense st))
  = (DashboardStats.totalExpenses (statsOf st)
     + Num.orZero (JS.Number (Expense.amount newExpense)))%num
  /\ DashboardStats.totalProfit (statsOf (handleAddExpense newExpense st))
     = ((salesProfit (products st) (sales st)
         + stockOutProfit (products st) (stockOuts st))
        - (DashboardStats.totalExpenses (statsOf st)
           + Num.orZero (JS.Number (Expense.amount newExpense))))%num
  /\ DashboardStats.totalRevenue (statsOf (handleAddExpense newExpense st))
     = DashboardStats.totalRevenue (statsOf st)
  /\ DashboardStats.totalSales (statsOf (handleAddExpense newExpense st))
     = DashboardStats.totalSales (statsOf st)
  /\ DashboardStats.lowStockCount (statsOf (handleAddExpense newExpense st))
     = DashboardStats.lowStockCount (statsOf st).
Proof.
  unfold statsOf. simpl.
  assert (He : totalExpenses (expenses st ++ [newExpense])
               = (totalExpenses (expenses st)
                  + Num.orZero (JS.Number (Expense.amount newExpense)))%num).
  { unfold totalExpenses. now rewrite fold_left_app. }
  repeat split; [exact He|].
  unfold totalProfit. now rewrite He.
Qed.

(** X15.  Deleting a product that no line item and no sale-reason stock-out
    refers to changes no revenue, profit, expense total or transaction
    count. *)
Theorem deleteProduct_unreferenced (pid : string) (st : State) :
  unreferenced pid st ->
  DashboardStats.totalRevenue (statsOf (handleDeleteProduct pid st))
  = DashboardStats.totalRevenue (statsOf st)
  /\ DashboardStats.totalProfit (statsOf (handleDeleteProduct pid st))
     = DashboardStats.totalProfit (statsOf st)
  /\ DashboardStats.totalExpenses (statsOf (handleDeleteProduct pid st))
     = DashboardStats.totalExpenses (statsOf st)
  /\ DashboardStats.totalSales (statsOf (handleDeleteProduct pid st))
     = DashboardStats.totalSales (statsOf st).
Proof.
  intros [Hitems Hsos]. unfold statsOf. simpl.
  destruct (money_same
              (filter (fun p => negb (String.eqb (Product.id p) pid))
                 (products st))
              (products st) (sales st) (expenses st) (stockOuts st))
    as [Hr Hp].
  - intros s item Hs Hitem. f_equal. apply findProduct_kept.
    now apply (Hitems s item).
  - intros so Hin Hsale. f_equal. apply findProduct_kept.
    now apply Hsos.
  - now rewrite Hr, Hp.
Qed.

Lemma deleteProduct_unreferenced_witness :
  DashboardStats.totalRevenue
    (statsOf (handleDeleteProduct "p2"
                (handleAddProduct Sample.gadget Scenario.shop)))
  = DashboardStats.totalRevenue
      (statsOf (handleAddProduct Sample.gadget Scenario.shop))
  /\ DashboardStats.totalProfit
       (statsOf (handleDeleteProduct "p2"
                   (handleAddProduct Sample.gadget Scenario.shop)))
     = DashboardStats.totalProfit
         (statsOf (handleAddProduct Sample.gadget Scenario.shop))
  /\ DashboardStats.totalExpenses
       (statsOf (handleDeleteProduct "p2"
                   (handleAddProduct Sample.gadget Scenario.shop)))
     = DashboardStats.totalExpenses
         (statsOf (handleAddProduct Sample.gadget Scenario.shop))
  /\ DashboardStats.totalSales
       (statsOf (handleDeleteProduct "p2"
                   (handleAddProduct Sample.gadget Scenario.shop)))
     = DashboardStats.totalSales
         (statsOf (handleAddProduct Sample.gadget Scenario.shop)).
Proof.
  apply deleteProduct_unreferenced. split.
  - intros s item [E|[]] Hitem. subst s.
    destruct Hitem as [E|[]]. subst item. discriminate.
  - intros so [E|[]] _. subst so. discriminate.
Defined.

(** X16.  The engine ignores every stock-out whose reason is not ['Sale']:
    all five metrics are those of the snapshot with these stock-outs
    removed. *)
Theorem stats_ignores_other_reasons (ps : list Product.t)
  (ss : list Sale.t) (es : list Expense.t) (sos : list StockOut.t) :
  stats ps ss es sos = stats ps ss es (filter isSale sos).
Proof.
  unfold stats, totalRevenue, totalProfit, totalSalesCount,
    stockOutRevenue, stockOutProfit.
  now rewrite filter_idem.
Qed.

Lemma max_zero_sub_le (s q : Num.t) :
  Num.isFinite s = true -> Num.isFinite q = true -> numLe q s ->
  Num.max Num.zero (s - q)%num = (s - q)%num.
Proof.
  destruct s as [| |a|], q as [| |b|]; try discriminate. intros _ _ Hle.
  rewrite NumFacts.sub_Fin.
  apply NumFacts.max_zero_id, NumFacts.round64_nonneg.
  simpl in Hle. now apply Qcle_minus_iff in Hle.
Qed.

(** X17.  A stock-out of a product whose stock is a finite number, for a
    finite quantity not above that stock, leaves exactly the stock minus the
    quantity; the quantity is not checked for sign, so a negative one raises
    the stock. *)
Theorem recordStockOut_exact (record : StockOut.t) (clock : nat -> string)
  (st : State) (i : nat) (p : Product.t) :
  nth_error (products st) i = Some p ->
  Product.id p = StockOut.productId record ->
  Num.isFinite (JS.Number (Product.stock p)) = true ->
  Num.isFinite (JS.Number (StockOut.quantity record)) = true ->
  numLe (JS.Number (StockOut.quantity record))
        (JS.Number (Product.stock p)) ->
  exists p',
    nth_error (products (handleRecordStockOut record clock st)) i = Some p'
    /\ Product.stock p'
       = PNumber (JS.Number (Product.stock p)
                  - JS.Number (StockOut.quantity record))%num
    /\ Product.lastUpdated p' = clock i.
Proof.
  intros Hi Hid Hs Hq Hle.
  exists (decrement record clock p i). split.
  - now apply recordStockOut_nth.
  - rewrite decrement_match by exact Hid.
    cbn [Product.stock Product.lastUpdated Product.withStock].
    split; [|reflexivity].
    now rewrite max_zero_sub_le.
Qed.

Lemma recordStockOut_exact_witness :
  exists p',
    nth_error (products (handleRecordStockOut Sample.out3 Scenario.clock
                           Scenario.shop)) 0 = Some p'
    /\ Product.stock p'
       = PNumber (JS.Number (Product.stock Scenario.widget)
                  - JS.Number (StockOut.quantity Sample.out3))%num
    /\ Product.lastUpdated p' = Scenario.clock 0.
Proof.
  apply (recordStockOut_exact Sample.out3 Scenario.clock Scenario.shop
           0 Scenario.widget).
  - reflexivity.
  - reflexivity.
  - reflexivity.
  - reflexivity.
  - apply NumFacts.leb_le. reflexivity.
Defined.

(* ================================================================== *)
(** ** Loading and saving *)
(* ================================================================== *)

(** X19.  No initialiser lets an exception escape: whether
    [localStorage.getItem] or [JSON.parse] throw or not, each of the five
    returns a value. *)
Theorem initialisers_never_throw
  (getItem : string -> Outcome (option string))
  (JSON_parse : string -> Outcome Value) (seedList : list Product.t)
  (loadedAt : string) :
  initProducts getItem JSON_parse seedList <> Throws
  /\ initSales getItem JSON_parse <> Throws
  /\ initExpenses getItem JSON_parse <> Throws
  /\ initStockOuts getItem JSON_parse <> Throws
  /\ initShopSettings getItem JSON_parse loadedAt <> Throws.
Proof.
  destruct (initialisers_return getItem JSON_parse seedList loadedAt)
    as ([? ->] & [? ->] & [? ->] & [? ->] & [? ->]).
  repeat split; discriminate.
Qed.

(** X20.  Whatever [localStorage] holds, each of the four collection
    initialisers returns an array. *)
Theorem collections_load_arrays
  (getItem : string -> Outcome (option string))
  (JSON_parse : string -> Outcome Value) (seedList : list Product.t) :
  (exists elems,
      initProducts getItem JSON_parse seedList = Returns (VArray elems))
  /\ (exists elems, initSales getItem JSON_parse = Returns (VArray elems))
  /\ (exists elems, initExpenses getItem JSON_parse = Returns (VArray elems))
  /\ (exists elems,
         initStockOuts getItem JSON_parse = Returns (VArray elems)).
Proof.
  unfold initProducts, initSales, initExpenses, initStockOuts, seed.
  repeat split;
    match goal with
    | |- exists _, tryThenReturn (readArray _ _ ?key ?d) _ = _ =>
        destruct (readArray_cases getItem JSON_parse key d)
          as [(text & elems & _ & _ & _ & H)|H];
        rewrite H; eauto
    end.
Qed.

Lemma unusable_default (getItem : string -> Outcome (option string))
  (JSON_parse : string -> Outcome Value) (key : string) (dflt : Value) :
  unusable getItem JSON_parse key ->
  tryThenReturn (readArray getItem JSON_parse key dflt) dflt = Returns dflt.
Proof.
  intros H. apply readArray_default.
  destruct H as [[H|[H|[H|(text & H1 & H2)]]]|(text & v & H1 & H2 & H3)];
    eauto 10.
Qed.

(** X21.  A collection initialiser whose key cannot be read, holds no text
    or an empty one, or holds text that is not the JSON of an array, returns
    its default: the seed list for the products, the empty array for the
    other three. *)
Theorem collections_fall_back
  (getItem : string -> Outcome (option string))
  (JSON_parse : string -> Outcome Value) (seedList : list Product.t) :
  (unusable getItem JSON_parse "sm_products_v2" ->
   initProducts getItem JSON_parse seedList = Returns (seed seedList))
  /\ (unusable getItem JSON_parse "sm_sales_v2" ->
      initSales getItem JSON_parse = Returns (VArray []))
  /\ (unusable getItem JSON_parse "sm_expenses_v2" ->
      initExpenses getItem JSON_parse = Returns (VArray []))
  /\ (unusable getItem JSON_parse "sm_stockouts_v2" ->
      initStockOuts getItem JSON_parse = Returns (VArray [])).
Proof. repeat split; apply unusable_default. Qed.

Lemma collections_fall_back_witness :
  initProducts (getItemOf Sample.noStore) Sample.parseEmpty [Scenario.widget]
  = Returns (seed [Scenario.widget])
  /\ initSales Scenario.getItemNull Scenario.parseNull = Returns (VArray []).
Proof.
  split.
  - apply (proj1 (collections_fall_back (getItemOf Sample.noStore)
                    Sample.parseEmpty [Scenario.widget])).
    left. right. left. reflexivity.
  - apply (proj1 (proj2 (collections_fall_back Scenario.getItemNull
                           Scenario.parseNull []))).
    right. exists "null", (VPrimitive PNull). repeat split.
Defined.

(** X22.  The settings initialiser returns [DEFAULT_SETTINGS] when its key
    cannot be read, holds no text or an empty one, or holds text that is
    not JSON. *)
Theorem settings_fall_back
  (getItem : string -> Outcome (option string))
  (JSON_parse : string -> Outcome Value) (loadedAt : string) :
  unparsable getItem JSON_parse "sm_settings_v2" ->
  initShopSettings getItem JSON_parse loadedAt
  = Returns (ShopSettings.toValue (DEFAULT_SETTINGS loadedAt)).
Proof.
  unfold initShopSettings, bind, present.
  intros [E|[E|[E|(text & E & Ep)]]]; rewrite E; simpl; try reflexivity.
  destruct (String.eqb text ""); simpl; [reflexivity|].
  now rewrite Ep.
Qed.

Lemma settings_fall_back_witness :
  initShopSettings (getItemOf (write "sm_settings_v2" "{oops" Sample.noStore))
    Sample.parseEmpty Scenario.day
  = Returns (ShopSettings.toValue (DEFAULT_SETTINGS Scenario.day)).
Proof.
  apply settings_fall_back.
  right. right. right. exists "{oops". split; reflexivity.
Defined.

Section SaveLoad.

Variable quotaOk : Store -> bool.
Variable JSON_stringify : Value -> string.
Variable JSON_parse : string -> Outcome Value.
Variable seedList : list Product.t.
Variable loadedAt : string.

Lemma keyOf_inj (a b : Slot) : keyOf a = keyOf b -> a = b.
Proof. destruct a, b; simpl; intros H; try reflexivity; discriminate H. Qed.

Lemma save_writes (slot : Slot) (v : Value) (s s' : Store) :
  save quotaOk JSON_stringify slot v s = Returns s' ->
  s' = write (keyOf slot) (JSON_stringify v) s.
Proof.
  destruct slot; simpl;
    unfold saveProducts, saveSales, saveExpenses, saveStockOuts,
      saveShopSettings, setItem;
    destruct (quotaOk _); intros H; inversion H; reflexivity.
Qed.

Lemma load_reads_own_key (slot : Slot) (s s' : Store) :
  s' (keyOf slot) = s (keyOf slot) ->
  load JSON_parse seedList loadedAt slot s'
  = load JSON_parse seedList loadedAt slot s.
Proof.
  destruct slot; simpl; intros H;
    unfold initProducts, initSales, initExpenses, initStockOuts,
      initShopSettings, readArray, getItemOf, bind;
    now rewrite H.
Qed.

Lemma load_after_write (slot : Slot) (text : string) (v : Value)
  (s : Store) :
  JSON_parse text = Returns v ->
  text <> "" ->
  slot = Settings \/ JS.isArray v = true ->
  load JSON_parse seedList loadedAt slot (write (keyOf slot) text s)
  = Returns v.
Proof.
  intros Hp Hne Hshape. apply String.eqb_neq in Hne.
  destruct slot; simpl;
    unfold initProducts, initSales, initExpenses, initStockOuts,
      initShopSettings, readArray, getItemOf, write, bind, present;
    simpl; rewrite Hne, Hp; simpl;
    try reflexivity;
    (destruct Hshape as [Hs|Hs]; [discriminate Hs | now rewrite Hs]).
Qed.

End SaveLoad.

(** X23.  The slots are persisted independently: after the effect of one
    slot has written, the initialiser of every other slot returns what it
    returned before. *)
Theorem save_leaves_other_slots (quotaOk : Store -> bool)
  (JSON_stringify : Value -> string) (JSON_parse : string -> Outcome Value)
  (seedList : list Product.t) (loadedAt : string)
  (slot other : Slot) (v : Value) (s s' : Store) :
  other <> slot ->
  save quotaOk JSON_stringify slot v s = Returns s' ->
  load JSON_parse seedList loadedAt other s'
  = load JSON_parse seedList loadedAt other s.
Proof.
  intros Hne Hsave. apply save_writes in Hsave. subst s'.
  apply load_reads_own_key. unfold write.
  assert (E : String.eqb (keyOf other) (keyOf slot) = false).
  { apply String.eqb_neq. intros H. now apply keyOf_inj in H. }
  now rewrite E.
Qed.

Lemma save_leaves_other_slots_witness :
  load Sample.parseEmpty [Scenario.widget] Scenario.day Products
    (write "sm_sales_v2" "[]" Sample.noStore)
  = load Sample.parseEmpty [Scenario.widget] Scenario.day Products
      Sample.noStore.
Proof.
  apply (save_leaves_other_slots Sample.roomy Sample.stringifyEmpty
           Sample.parseEmpty [Scenario.widget] Scenario.day
           Sales Products (VArray []) Sample.noStore).
  - discriminate.
  - reflexivity.
Defined.

(** X24.  What the effect of a slot writes is what the initialiser of that
    slot reads back: when the write is accepted and [JSON.parse] inverts
    [JSON.stringify] on the value, a reload returns the value, provided it
    is an array or the slot is the settings. *)
Theorem save_then_load (quotaOk : Store -> bool)
  (JSON_stringify : Value -> string) (JSON_parse : string -> Outcome Value)
  (seedList : list Product.t) (loadedAt : string)
  (slot : Slot) (v : Value) (s s' : Store) :
  save quotaOk JSON_stringify slot v s = Returns s' ->
  JSON_parse (JSON_stringify v) = Returns v ->
  JSON_stringify v <> "" ->
  slot = Settings \/ JS.isArray v = true ->
  load JSON_parse seedList loadedAt slot s' = Returns v.
Proof.
  intros Hsave Hp Hne Hshape. apply save_writes in Hsave. subst s'.
  now apply load_after_write.
Qed.

Lemma save_then_load_witness :
  load Sample.parseEmpty [Scenario.widget] Scenario.day Products
    (write "sm_products_v2" "[]" Sample.noStore)
  = Returns (VArray []).
Proof.
  apply (save_then_load Sample.roomy Sample.stringifyEmpty
           Sample.parseEmpty [Scenario.widget] Scenario.day
           Products (VArray []) Sample.noStore).
  - reflexivity.
  - reflexivity.
  - discriminate.
  - right. reflexivity.
Defined.

(* ================================================================== *)
(** ** The header title *)
(* ================================================================== *)

(** X25.  The header shows the name of the view with its first underscore
    turned into a space: a name without underscore is shown as it is, and
    whatever follows the first underscore, further underscores included, is
    shown unchanged. *)
Theorem headerTitle_first_underscore (a b : string) :
  (forall c, In c (list_ascii_of_string a) -> c <> "_"%char) ->
  headerTitle a = a
  /\ headerTitle (a ++ String "_" b) = (a ++ String " " b)%string.
Proof.
  unfold headerTitle. induction a as [|c r IH]; intros H; simpl.
  - split; reflexivity.
  - assert (Hc : Ascii.eqb c "_" = false).
    { apply Ascii.eqb_neq. apply H. now left. }
    rewrite Hc. destruct IH as [IH1 IH2].
    + intros d Hd. apply H. now right.
    + now rewrite IH1, IH2.
Qed.

Lemma headerTitle_first_underscore_witness :
  headerTitle "DAILY" = "DAILY"
  /\ headerTitle ("DAILY" ++ String "_" "SALES_REPORT")
     = ("DAILY" ++ String " " "SALES_REPORT")%string.
Proof.
  apply headerTitle_first_underscore.
  intros c H. simpl in H.
  repeat (destruct H as [H|H]; [subst c; discriminate|]).
  contradiction.
Defined.
